(** * Sia test harness (package siatest): upload and download monitors

    A shallow embedding of the methods of [TestNode] that drive uploads and
    downloads against a renter and poll its reported state:
    [DownloadToDisk], [DownloadByStream], [DownloadInfo], [Files],
    [FileInfo], [Upload], [UploadNewFile], [UploadNewFileBlocking],
    [WaitForDownload], [WaitForUploadProgress], [WaitForUploadRedundancy].

    The renter, the local disk, the random source and the clock are outside
    the harness.  They are gathered in the interface [Node]; every method is
    a computation over an arbitrary implementation of that interface, which
    threads the node's state and records the calls made to it. *)

From Stdlib Require Import ZArith List String Ascii Bool Lia.
From Stdlib Require Import SpecFloat DecimalString.
From Stdlib Require Import Strings.Byte.
Import ListNotations.

Local Open Scope Z_scope.
Local Open Scope string_scope.
Local Open Scope list_scope.

(** ** Machine data *)

(** Go's [uint64]: a [Z] in [0, 2^64), sums wrap around. *)
Definition uint64 := Z.
Definition wrap64 (z : Z) : uint64 := z mod 2 ^ 64.
Definition add64 (a b : uint64) : uint64 := wrap64 (a + b).

(** Go's [float64]: IEEE 754 binary64, as the Standard Library specifies
    it (precision 53, maximal exponent 1024). *)
Definition float64 := spec_float.
Definition prec64 : Z := 53.
Definition emax64 : Z := 1024.

(** The conversion [float64(n)] of an integer, rounding to nearest even. *)
Definition float64_of_Z (n : Z) : float64 := binary_normalize prec64 emax64 n 0 false.
(** [x / y] and [x < y] on [float64]. *)
Definition fdiv (x y : float64) : float64 := SFdiv prec64 emax64 x y.
Definition fltb (x y : float64) : bool := SFltb x y.
(** [y <= x]: the order in which the spec words the thresholds. *)
Definition fgeb (x y : float64) : bool := SFleb y x.
Definition is_nan (x : float64) : bool :=
  match x with S754_nan => true | _ => false end.

Definition float64_zero : float64 := S754_zero false.
Definition float64_one : float64 := Eval vm_compute in float64_of_Z 1.

(** [time.Duration]: nanoseconds. *)
Definition Duration := Z.
Definition Millisecond : Duration := 1000000.

Definition MaxInt32 : Z := 2 ^ 31 - 1.

(** [strconv.Itoa]. *)
Definition Itoa (n : Z) : string := NilZero.string_of_int (Z.to_int n).

(** Byte slices, and [crypto.Hash] (an array of bytes compared with [==]). *)
Definition bytes := list Byte.byte.
Definition Hash := bytes.

Fixpoint bytes_eqb (a b : bytes) : bool :=
  match a, b with
  | [], [] => true
  | x :: a', y :: b' => Byte.eqb x y && bytes_eqb a' b'
  | _, _ => false
  end.

(** ** Errors

    Package [github.com/NebulousLabs/errors] is a dependency; its source is
    not part of the harness.  An error value is modelled by how it was
    built: [errors.New], [fmt.Errorf] with its format and [float64]
    arguments, a context added by [errors.AddContext], or one of the two
    failures of the integrity checker (both are the spec's IntegrityError).  Go's [error] interface value is [option Err], [nil]
    being [None]. *)
Inductive Err : Type :=
| New (msg : string)
| Errorf (format : string) (args : list float64)
| Context (err : Err) (ctx : string)
| IntegrityUnreadable (cause : Err)
| IntegrityMismatch.

Definition error := option Err.

(** [errors.AddContext(err, s)], as the package documents it: "AddContext
    will add a string context to an error if the error is not nil.  If the
    error being extended is nil, nil will be returned." *)
Definition AddContext (err : error) (s : string) : error :=
  match err with
  | None => None
  | Some e => Some (Context e s)
  end.

Definition is_nil {A} (p : option A) : bool :=
  match p with None => true | Some _ => false end.

(** ** Data model *)

(** [LocalFile] and [RemoteFile] of package siatest (the fields the methods
    read). *)
Record LocalFile := mkLocalFile { path : string; checksum : Hash }.
Record RemoteFile := mkRemoteFile { siaPath : string; rf_checksum : Hash }.

(** [modules.FileInfo] (the fields the methods read). *)
Record modules_FileInfo := mkFileInfo {
  fi_SiaPath : string;
  fi_Filesize : uint64;
  fi_UploadProgress : float64;
  fi_Redundancy : float64
}.

(** The zero value [modules.FileInfo{}]. *)
Definition FileInfo_zero : modules_FileInfo :=
  mkFileInfo "" 0 float64_zero float64_zero.

(** [api.DownloadInfo] (the fields the methods read). *)
Record api_DownloadInfo := mkDownloadInfo {
  di_SiaPath : string;
  di_Destination : string;
  di_Length : uint64;
  di_Filesize : uint64;
  di_Received : uint64;
  di_TotalDataTransferred : uint64;
  di_Completed : bool
}.

(** [api.RenterFiles] and [api.RenterDownloadQueue]. *)
Record api_RenterFiles := mkRenterFiles { rf_Files : list modules_FileInfo }.
Record api_RenterDownloadQueue :=
  mkRenterDownloadQueue { rdq_Downloads : list api_DownloadInfo }.

(** ** The node

    What the harness calls and does not implement: the renter's API client,
    the disk, the random source, the clock, and the helpers of packages
    crypto, filepath and siatest that are declared outside these sources.
    [Σ] is the state of the world these calls read and change. *)
Class Node (Σ : Type) := {
  (** [crypto.HashAll] of a byte slice. *)
  HashAll : bytes -> Hash;
  (** The checksum of a file's content, in the hash family of the expected
      checksum of a [LocalFile]. *)
  fileChecksum : bytes -> Hash;
  (** The constant [SiaTestingDir], [filepath.Join] of two elements and
      the method [fileName] of [LocalFile]. *)
  SiaTestingDir : string;
  filepath_Join : string -> string -> string;
  fileName : LocalFile -> string;
  (** API client. *)
  node_RenterFilesGet : Σ -> (api_RenterFiles * error) * Σ;
  node_RenterDownloadsGet : Σ -> (api_RenterDownloadQueue * error) * Σ;
  node_RenterUploadPost : string -> string -> uint64 -> uint64 -> Σ -> error * Σ;
  node_RenterDownloadGet :
    string -> string -> uint64 -> uint64 -> bool -> Σ -> error * Σ;
  node_RenterDownloadHTTPResponseGet :
    string -> uint64 -> uint64 -> Σ -> (bytes * error) * Σ;
  (** [ioutil.ReadFile], [NewFile] of package siatest (it returns a pointer),
      [fastrand.Intn] and [time.Sleep]. *)
  node_ReadFile : string -> Σ -> (bytes * error) * Σ;
  node_NewFile : Z -> Σ -> (option LocalFile * error) * Σ;
  node_Intn : Z -> Σ -> Z * Σ;
  node_Sleep : Duration -> Σ -> Σ
}.

(** The calls a computation makes to the node, in order. *)
Inductive Event : Type :=
| EvRenterFilesGet
| EvRenterDownloadsGet
| EvRenterUploadPost (source siapath : string) (dataPieces parityPieces : uint64)
| EvRenterDownloadGet (siapath destination : string) (offset length : uint64)
    (async : bool)
| EvRenterDownloadHTTPResponseGet (siapath : string) (offset length : uint64)
| EvReadFile (file : string)
| EvNewFile (size : Z)
| EvIntn (n : Z)
| EvSleep (d : Duration)
| EvCheck.

Definition is_sleep (e : Event) : bool :=
  match e with EvSleep _ => true | _ => false end.
Definition is_check (e : Event) : bool :=
  match e with EvCheck => true | _ => false end.
Definition is_read (e : Event) : bool :=
  match e with EvReadFile _ => true | _ => false end.
Definition is_files_get (e : Event) : bool :=
  match e with EvRenterFilesGet => true | _ => false end.
Definition is_downloads_get (e : Event) : bool :=
  match e with EvRenterDownloadsGet => true | _ => false end.

Definition count (p : Event -> bool) (t : list Event) : nat :=
  List.length (filter p t).

(** ** Computations

    A computation runs from a state of the node to a value (or a run-time
    panic, for a nil pointer dereference), the state it leaves and the
    calls it made. *)
Inductive outcome (A : Type) : Type :=
| Val (a : A)
| Panic.
Arguments Val {A} a.
Arguments Panic {A}.

Definition M (Σ A : Type) : Type := Σ -> outcome A * Σ * list Event.

Definition ret {Σ A} (a : A) : M Σ A := fun s => (Val a, s, []).

Definition bind {Σ A B} (m : M Σ A) (k : A -> M Σ B) : M Σ B :=
  fun s =>
    match m s with
    | (Val a, s1, t1) =>
        match k a s1 with
        | (r, s2, t2) => (r, s2, t1 ++ t2)
        end
    | (Panic, s1, t1) => (Panic, s1, t1)
    end.

Definition panic {Σ A} : M Σ A := fun s => (Panic, s, []).

(** Dereference of a pointer. *)
Definition deref {Σ A} (p : option A) : M Σ A :=
  match p with
  | Some a => ret a
  | None => panic
  end.

(** One call to the node, recorded. *)
Definition call {Σ A} (ev : Event) (f : Σ -> A * Σ) : M Σ A :=
  fun s => let (a, s') := f s in (Val a, s', [ev]).

Declare Scope harness_scope.
Delimit Scope harness_scope with harness.
Notation "x <- m ;; k" := (bind m (fun x => k))
  (at level 100, m at next level, right associativity) : harness_scope.
Notation "' pat <- m ;; k" := (bind m (fun x => match x with pat => k end))
  (at level 100, pat pattern, m at next level, right associativity)
  : harness_scope.
Local Open Scope harness_scope.

(** Projections of a run. *)
Definition result {Σ A} (r : outcome A * Σ * list Event) : outcome A := fst (fst r).
Definition final {Σ A} (r : outcome A * Σ * list Event) : Σ := snd (fst r).
Definition trace {Σ A} (r : outcome A * Σ * list Event) : list Event := snd r.

(** ** The harness *)
Section Harness.

Context {Σ : Type} {node : Node Σ}.

(** *** Calls to the node *)

Definition RenterFilesGet : M Σ (api_RenterFiles * error) :=
  call EvRenterFilesGet node_RenterFilesGet.

Definition RenterDownloadsGet : M Σ (api_RenterDownloadQueue * error) :=
  call EvRenterDownloadsGet node_RenterDownloadsGet.

Definition RenterUploadPost (source siapath : string) (dataPieces parityPieces : uint64)
  : M Σ error :=
  call (EvRenterUploadPost source siapath dataPieces parityPieces)
       (node_RenterUploadPost source siapath dataPieces parityPieces).

Definition RenterDownloadGet (siapath destination : string) (offset length : uint64)
  (async : bool) : M Σ error :=
  call (EvRenterDownloadGet siapath destination offset length async)
       (node_RenterDownloadGet siapath destination offset length async).

Definition RenterDownloadHTTPResponseGet (siapath : string) (offset length : uint64)
  : M Σ (bytes * error) :=
  call (EvRenterDownloadHTTPResponseGet siapath offset length)
       (node_RenterDownloadHTTPResponseGet siapath offset length).

Definition ReadFile (file : string) : M Σ (bytes * error) :=
  call (EvReadFile file) (node_ReadFile file).

Definition NewFile (size : Z) : M Σ (option LocalFile * error) :=
  call (EvNewFile size) (node_NewFile size).

Definition Intn (n : Z) : M Σ Z := call (EvIntn n) (node_Intn n).

Definition Sleep (d : Duration) : M Σ unit :=
  call (EvSleep d) (fun s => (tt, node_Sleep d s)).

(** *** Retry engine *)

(** Modelled from the spec: function [Retry] of package siatest is called
    by the wait operations and declared outside these sources.  Section 4.1:
    it invokes [check] up to [maxAttempts] times; after each failing attempt
    except the last it suspends the caller for [interval] before retrying;
    it returns success on the first attempt whose check succeeds, and the
    error of the final attempt if all attempts fail.  With no attempt to
    make there is no error to return. *)
Fixpoint retryLoop (attempts : nat) (interval : Duration) (check : M Σ error) : M Σ error :=
  match attempts with
  | O => ret None
  | S rest =>
      err <- check ;;
      match err with
      | None => ret None
      | Some e =>
          match rest with
          | O => ret (Some e)
          | S _ => _ <- Sleep interval ;; retryLoop rest interval check
          end
      end
  end.

Definition Retry (maxAttempts : Z) (interval : Duration) (check : M Σ error) : M Σ error :=
  retryLoop (Z.to_nat maxAttempts) interval check.

(** *** Integrity checker *)

(** Modelled from the spec: method [checkIntegrity] of [LocalFile] is
    declared outside these sources.  Section 4.2: it reads the file content
    at the local path in full, computes its checksum and compares it with
    the expected one; it fails with an IntegrityError if the file cannot be
    read or if the checksums differ. *)
Definition checkIntegrity (lf : LocalFile) : M Σ error :=
  '(data, err) <- ReadFile (path lf) ;;
  match err with
  | Some e => ret (Some (IntegrityUnreadable e))
  | None =>
      if bytes_eqb (fileChecksum data) (checksum lf) then ret None
      else ret (Some IntegrityMismatch)
  end.

(** *** Tracked files *)

(** [Files] lists the files tracked by the renter. *)
Definition Files : M Σ (list modules_FileInfo * error) :=
  '(rf, err) <- RenterFilesGet ;;
  match err with
  | Some _ => ret ([], err)
  | None => ret (rf_Files rf, err)
  end.

(** [FileInfo] retrieves the info of a certain file that is tracked by the
    renter: the first listed file with the remote file's path. *)
Definition FileInfo (rf : RemoteFile) : M Σ (modules_FileInfo * error) :=
  '(files, err) <- Files ;;
  match err with
  | Some _ => ret (FileInfo_zero, err)
  | None =>
      match find (fun file => String.eqb (fi_SiaPath file) (siaPath rf)) files with
      | Some file => ret (file, None)
      | None => ret (FileInfo_zero, Some (New "file is not tracked by the renter"))
      end
  end.

(** *** Downloads *)

(** [DownloadToDisk] downloads a previously uploaded file to a random
    location. *)
Definition DownloadToDisk (rf : RemoteFile) (async : bool)
  : M Σ (option LocalFile * error) :=
  '(fi, err) <- FileInfo rf ;;
  match err with
  | Some _ => ret (None, AddContext err "failed to retrieve FileInfo")
  | None =>
      n <- Intn MaxInt32 ;;
      let fileName := Itoa n in
      let dest := filepath_Join SiaTestingDir fileName in
      err <- RenterDownloadGet (siaPath rf) dest 0 (fi_Filesize fi) async ;;
      match err with
      | Some _ => ret (None, AddContext err "failed to download file")
      | None =>
          let lf := {| path := dest; checksum := rf_checksum rf |} in
          if async then ret (Some lf, None)
          else
            err <- checkIntegrity lf ;;
            match err with
            | Some _ =>
                ret (Some lf, AddContext err "downloaded file's checksum doesn't match")
            | None => ret (Some lf, None)
            end
      end
  end.

(** [DownloadByStream] downloads a file and returns its contents. *)
Definition DownloadByStream (rf : RemoteFile) : M Σ (bytes * error) :=
  '(fi, err) <- FileInfo rf ;;
  match err with
  | Some _ => ret ([], AddContext err "failed to retrieve FileInfo")
  | None =>
      '(data, err) <- RenterDownloadHTTPResponseGet (siaPath rf) 0 (fi_Filesize fi) ;;
      if is_nil err && negb (bytes_eqb (rf_checksum rf) (HashAll data))
      then ret (data, Some (New "downloaded bytes don't match requested data"))
      else ret (data, err)
  end.

(** The test of the loop of [DownloadInfo]. *)
Definition matches (lf : LocalFile) (rf : RemoteFile) (d : api_DownloadInfo) : bool :=
  String.eqb (siaPath rf) (di_SiaPath d) && String.eqb (path lf) (di_Destination d).

(** The three sanity checks of [DownloadInfo], each rebinding [err]. *)
Definition sanity (di : api_DownloadInfo) (err : error) : error :=
  let err :=
    if negb (Z.eqb (di_Length di) (di_Filesize di))
    then AddContext err "filesize != length" else err in
  let err :=
    if Z.gtb (di_Received di) (di_TotalDataTransferred di)
    then AddContext err "received > TotalDataTransfered" else err in
  let err :=
    if di_Completed di && negb (Z.eqb (di_Received di) (di_Length di))
    then AddContext err "completed == true but received != length" else err in
  err.

(** [DownloadInfo] returns the download record of a file: the first one
    with the remote file's path and the local file's path. *)
Definition DownloadInfo (lf : LocalFile) (rf : RemoteFile)
  : M Σ (option api_DownloadInfo * error) :=
  '(rdq, err) <- RenterDownloadsGet ;;
  match err with
  | Some _ => ret (None, err)
  | None =>
      match find (matches lf rf) (rdq_Downloads rdq) with
      | None => ret (None, Some (New "download info not found"))
      | Some di => ret (Some di, sanity di err)
      end
  end.

(** *** Uploads *)

(** [Upload] uses the node to upload the file. *)
Definition Upload (lf : LocalFile) (dataPieces parityPieces : uint64)
  : M Σ (option RemoteFile * error) :=
  err <- RenterUploadPost (path lf) ("/" ++ fileName lf)%string dataPieces parityPieces ;;
  match err with
  | Some _ => ret (None, err)
  | None =>
      let rf := {| siaPath := fileName lf; rf_checksum := checksum lf |} in
      '(_, err) <- FileInfo rf ;;
      match err with
      | Some _ =>
          ret (Some rf, AddContext err "uploaded file is not tracked by the renter")
      | None => ret (Some rf, None)
      end
  end.

(** [UploadNewFile] initiates the upload of a [filesize] bytes large file. *)
Definition UploadNewFile (filesize : Z) (dataPieces parityPieces : uint64)
  : M Σ (option RemoteFile * error) :=
  '(lf, err) <- NewFile filesize ;;
  match err with
  | Some _ => ret (None, AddContext err "failed to create file")
  | None =>
      lf <- deref lf ;;
      '(rf, err) <- Upload lf dataPieces parityPieces ;;
      match err with
      | Some _ => ret (rf, AddContext err "failed to start upload")
      | None => ret (rf, err)
      end
  end.

(** The check polled by [WaitForUploadProgress]. *)
Definition progressCheck (rf : RemoteFile) (progress : float64) : M Σ error :=
  '(file, err) <- FileInfo rf ;;
  match err with
  | Some _ => ret (AddContext err "couldn't retrieve FileInfo")
  | None =>
      if fltb (fi_UploadProgress file) progress
      then ret (Some (Errorf "progress should be %v but was %v"
                             [progress; fi_UploadProgress file]))
      else ret None
  end.

(** [WaitForUploadProgress] waits for a file to reach a certain upload
    progress. *)
Definition WaitForUploadProgress (rf : RemoteFile) (progress : float64) : M Σ error :=
  '(_, err) <- FileInfo rf ;;
  match err with
  | Some _ => ret (Some (New "file is not tracked by renter"))
  | None => Retry 1000 (100 * Millisecond) (progressCheck rf progress)
  end.

(** The check polled by [WaitForUploadRedundancy]. *)
Definition redundancyCheck (rf : RemoteFile) (redundancy : float64) : M Σ error :=
  '(file, err) <- FileInfo rf ;;
  match err with
  | Some _ => ret (AddContext err "couldn't retrieve FileInfo")
  | None =>
      if fltb (fi_Redundancy file) redundancy
      then ret (Some (Errorf "redundancy should be %v but was %v"
                             [redundancy; fi_Redundancy file]))
      else ret None
  end.

(** [WaitForUploadRedundancy] waits for a file to reach a certain upload
    redundancy. *)
Definition WaitForUploadRedundancy (rf : RemoteFile) (redundancy : float64) : M Σ error :=
  '(_, err) <- FileInfo rf ;;
  match err with
  | Some _ => ret (Some (New "file is not tracked by renter"))
  | None => Retry 1000 (100 * Millisecond) (redundancyCheck rf redundancy)
  end.

(** The redundancy [UploadNewFileBlocking] waits for:
    [float64((dataPieces+parityPieces))/float64(dataPieces)]. *)
Definition fullRedundancy (dataPieces parityPieces : uint64) : float64 :=
  fdiv (float64_of_Z (add64 dataPieces parityPieces)) (float64_of_Z dataPieces).

(** [UploadNewFileBlocking] uploads a [filesize] bytes large file and waits
    for the upload to reach 100% progress and redundancy.  The remote file
    is handed to the wait operations by pointer. *)
Definition UploadNewFileBlocking (filesize : Z) (dataPieces parityPieces : uint64)
  : M Σ (option RemoteFile * error) :=
  '(rf, err) <- UploadNewFile filesize dataPieces parityPieces ;;
  match err with
  | Some _ => ret (rf, err)
  | None =>
      r <- deref rf ;;
      err <- WaitForUploadProgress r float64_one ;;
      match err with
      | Some _ => ret (rf, err)
      | None =>
          err <- WaitForUploadRedundancy r (fullRedundancy dataPieces parityPieces) ;;
          ret (rf, err)
      end
  end.

(** The check polled by [WaitForDownload]. *)
Definition downloadCheck (lf : LocalFile) (rf : RemoteFile) : M Σ error :=
  '(file, err) <- DownloadInfo lf rf ;;
  match err with
  | Some _ => ret (AddContext err "couldn't retrieve DownloadInfo")
  | None =>
      match file with
      | None => ret None
      | Some file =>
          if negb (di_Completed file)
          then ret (Some (New "download hasn't finished yet"))
          else ret None
      end
  end.

(** [WaitForDownload] waits for the download of a file to finish, then
    verifies the checksum of the downloaded file. *)
Definition WaitForDownload (lf : LocalFile) (rf : RemoteFile) : M Σ error :=
  err <- Retry 1000 (100 * Millisecond) (downloadCheck lf rf) ;;
  match err with
  | Some _ => ret err
  | None => checkIntegrity lf
  end.

End Harness.


(** ** Notions used to state the facts *)
Section Notions.

Context {Σ : Type} {node : Node Σ}.

(** One request to the renter decides what [FileInfo] returns. *)
Definition lookup (rf : RemoteFile) (answer : api_RenterFiles * error)
  : modules_FileInfo * error :=
  match snd answer with
  | Some _ => (FileInfo_zero, snd answer)
  | None =>
      match find (fun file => String.eqb (fi_SiaPath file) (siaPath rf))
                 (rf_Files (fst answer)) with
      | Some file => (file, None)
      | None => (FileInfo_zero, Some (New "file is not tracked by the renter"))
      end
  end.

(** One request to the renter decides what [DownloadInfo] returns. *)
Definition record (lf : LocalFile) (rf : RemoteFile)
  (answer : api_RenterDownloadQueue * error) : option api_DownloadInfo * error :=
  match snd answer with
  | Some _ => (None, snd answer)
  | None =>
      match find (matches lf rf) (rdq_Downloads (fst answer)) with
      | None => (None, Some (New "download info not found"))
      | Some di => (Some di, sanity di None)
      end
  end.

(** The outcome of the check of [WaitForDownload], from what [DownloadInfo]
    returned. *)
Definition judge (r : option api_DownloadInfo * error) : error :=
  match snd r with
  | Some _ => AddContext (snd r) "couldn't retrieve DownloadInfo"
  | None =>
      match fst r with
      | None => None
      | Some file =>
          if negb (di_Completed file) then Some (New "download hasn't finished yet")
          else None
      end
  end.

(** The check of [WaitForDownload] with the branch taken on a nil record
    and a nil error replaced by an arbitrary computation. *)
Definition downloadCheckWith (onNilRecord : M Σ error) (lf : LocalFile) (rf : RemoteFile)
  : M Σ error :=
  '(file, err) <- DownloadInfo lf rf ;;
  match err with
  | Some _ => ret (AddContext err "couldn't retrieve DownloadInfo")
  | None =>
      match file with
      | None => onNilRecord
      | Some file =>
          if negb (di_Completed file)
          then ret (Some (New "download hasn't finished yet"))
          else ret None
      end
  end.

(** [Polled interval check k s r]: from state [s], [k] attempts of [check]
    were made and led to [r].  Every attempt but the last failed and was
    followed by one suspension of [interval]; the last attempt ended the
    run, which has its result and leaves its state. *)
Inductive Polled (interval : Duration) (check : M Σ error)
  : nat -> Σ -> outcome error * Σ * list Event -> Prop :=
| Polled_last (s : Σ) : Polled interval check 1 s (check s)
| Polled_again (k : nat) (s s1 s2 : Σ) (e : Err) (t1 t2 : list Event)
    (r : outcome error) :
    check s = (Val (Some e), s1, t1) ->
    Polled interval check k (node_Sleep interval s1) (r, s2, t2) ->
    Polled interval check (S k) s (r, s2, t1 ++ EvSleep interval :: t2).

Definition failed (r : outcome error) : Prop := exists e, r = Val (Some e).

(** When every attempt makes one call [ev] to the node and nothing else,
    a run of [k] attempts leaves this trace. *)
Fixpoint pollTrace (ev : Event) (interval : Duration) (k : nat) : list Event :=
  match k with
  | O => []
  | S k' =>
      match k' with
      | O => [ev]
      | S _ => ev :: EvSleep interval :: pollTrace ev interval k'
      end
  end.

(** The renter reports no download of [rf] to [lf], in whatever state it is
    asked. *)
Definition never_listed (lf : LocalFile) (rf : RemoteFile) : Prop :=
  forall s0 : Σ, exists rdq s1,
    node_RenterDownloadsGet s0 = ((rdq, None), s1) /\
    forall d, In d (rdq_Downloads rdq) ->
              ~ (di_SiaPath d = siaPath rf /\ di_Destination d = path lf).

Definition not_retrieved : Err :=
  Context (New "download info not found") "couldn't retrieve DownloadInfo".

(** [WaitForUploadProgress] and [WaitForUploadRedundancy] have one shape:
    they differ in the field they observe and in the format of the error. *)
Definition thresholdCheck (format : string) (observed : modules_FileInfo -> float64)
  (rf : RemoteFile) (target : float64) : M Σ error :=
  '(file, err) <- FileInfo rf ;;
  match err with
  | Some _ => ret (AddContext err "couldn't retrieve FileInfo")
  | None =>
      if fltb (observed file) target
      then ret (Some (Errorf format [target; observed file]))
      else ret None
  end.

Definition waitFor (format : string) (observed : modules_FileInfo -> float64)
  (rf : RemoteFile) (target : float64) : M Σ error :=
  '(_, err) <- FileInfo rf ;;
  match err with
  | Some _ => ret (Some (New "file is not tracked by renter"))
  | None => Retry 1000 (100 * Millisecond) (thresholdCheck format observed rf target)
  end.

Definition progressFormat : string := "progress should be %v but was %v".
Definition redundancyFormat : string := "redundancy should be %v but was %v".

(** What one poll returns, from what [FileInfo] returned to it. *)
Definition verdict (format : string) (observed : modules_FileInfo -> float64)
  (target : float64) (r : modules_FileInfo * error) : error :=
  match r with
  | (_, Some e) => Some (Context e "couldn't retrieve FileInfo")
  | (file, None) =>
      if fltb (observed file) target
      then Some (Errorf format [target; observed file])
      else None
  end.

Definition untracked : Err := New "file is not tracked by renter".

(** A wait that found the file tracked: [k] polls were made, the last one
    from state [s0] where [FileInfo] returned [r0]. *)
Definition polling (wait : M Σ error) (format : string)
  (observed : modules_FileInfo -> float64) (rf : RemoteFile) (target : float64)
  (s : Σ) : Prop :=
  exists (k : nat) (s0 : Σ) (r0 : modules_FileInfo * error),
    (1 <= k <= 1000)%nat /\
    Polled (100 * Millisecond) (thresholdCheck format observed rf target) k
           (final (FileInfo rf s))
           (Retry 1000 (100 * Millisecond) (thresholdCheck format observed rf target)
                  (final (FileInfo rf s))) /\
    trace (wait s) =
      EvRenterFilesGet :: pollTrace EvRenterFilesGet (100 * Millisecond) k /\
    result (FileInfo rf s0) = Val r0 /\
    final (wait s) = final (FileInfo rf s0) /\
    result (wait s) = Val (verdict format observed target r0) /\
    ((k < 1000)%nat -> result (wait s) = Val None).

(** What the integrity checker returns, from what reading the file
    returned. *)
Definition integrity (lf : LocalFile) (r : bytes * error) : error :=
  match r with
  | (_, Some e) => Some (IntegrityUnreadable e)
  | (data, None) =>
      if bytes_eqb (fileChecksum data) (checksum lf) then None
      else Some IntegrityMismatch
  end.

Definition mismatch : Err := New "downloaded bytes don't match requested data".

Definition unverified : string := "downloaded file's checksum doesn't match".

Definition not_tracked : string := "uploaded file is not tracked by the renter".

(** The remote file [Upload] creates for a local file. *)
Definition remote (lf : LocalFile) : RemoteFile :=
  {| siaPath := fileName lf; rf_checksum := checksum lf |}.

(** The four steps of [UploadNewFileBlocking], each from the state the
    step before left.  The targets of the two waits are written out: 1 as a
    [float64], and the quotient of the [uint64] sum of the pieces, which
    wraps at [2^64], by the data pieces, both as [float64]. *)
Definition steps (filesize : Z) (d p : uint64) (s : Σ) (lf : LocalFile)
  (r : RemoteFile) (s1 s2 s3 s4 : Σ) (t2 t3 t4 : list Event) : Prop :=
  node_NewFile filesize s = ((Some lf, None), s1) /\
  Upload lf d p s1 = (Val (Some r, None), s2, t2) /\
  WaitForUploadProgress r (float64_of_Z 1) s2 = (Val None, s3, t3) /\
  WaitForUploadRedundancy
    r (fdiv (float64_of_Z ((d + p) mod 2 ^ 64)) (float64_of_Z d)) s3 =
    (Val None, s4, t4).

End Notions.

(** ** Notions used to state the further behaviour *)
Section Bounds.

Context {Σ : Type} {node : Node Σ}.

(** Every suspension recorded in a trace lasts [interval]. *)
Definition paced (interval : Duration) (t : list Event) : Prop :=
  Forall (fun ev => is_sleep ev = true -> ev = EvSleep interval) t.

(** The time a trace spends suspended. *)
Fixpoint slept (t : list Event) : Duration :=
  match t with
  | [] => 0
  | EvSleep d :: t' => d + slept t'
  | _ :: t' => slept t'
  end.

(** The renter lists a download of [rf] to [lf] that has not completed, in
    whatever state it is asked. *)
Definition always_pending (lf : LocalFile) (rf : RemoteFile) : Prop :=
  forall s0 : Σ, exists rdq s1 d,
    node_RenterDownloadsGet s0 = ((rdq, None), s1) /\
    find (matches lf rf) (rdq_Downloads rdq) = Some d /\
    di_Completed d = false.

Definition unfinished : Err := New "download hasn't finished yet".

(** The budget of a wait for an upload, called with a remote file that is
    not nil: it returns, after at least one and
    at most 1001 requests for the list of files and nothing else but
    suspensions of 100ms, two fewer than requests and at most 99.9 seconds
    in all. *)
Definition within_upload_budget (r : outcome error * Σ * list Event) : Prop :=
  result r <> Panic /\
  (1 <= count is_files_get (trace r) <= 1001)%nat /\
  count is_sleep (trace r) = pred (pred (count is_files_get (trace r))) /\
  paced (100 * Millisecond) (trace r) /\
  0 <= slept (trace r) <= 99900 * Millisecond /\
  Forall (fun ev => is_files_get ev || is_sleep ev = true) (trace r).

End Bounds.

(** ** A scripted node

    An executable implementation of [Node]: the renter answers the k-th
    listing request (of files or of downloads) as a script prescribes, the
    other calls have fixed answers, and sleeping advances a clock. *)
Module Sim.

Record script := mkScript {
  files_at : nat -> api_RenterFiles * error;
  downloads_at : nat -> api_RenterDownloadQueue * error;
  upload_answer : error;
  download_answer : error;
  stream_answer : bytes * error;
  disk : string -> bytes * error;
  newfile_answer : option LocalFile * error;
  random : Z
}.

Record state := mkState {
  requests : nat;
  clock : Duration
}.

Definition start : state := mkState 0 0.

Definition served (s : state) : state := mkState (S (requests s)) (clock s).

(** The last element of a slash-separated path. *)
Fixpoint base (acc p : string) : string :=
  match p with
  | EmptyString => acc
  | String c p' =>
      if Ascii.eqb c "/" then base EmptyString p' else base (acc ++ String c EmptyString)%string p'
  end.

Definition node (sc : script) : Node state := {|
  HashAll := fun data => data;
  fileChecksum := fun data => data;
  SiaTestingDir := "/tmp/SiaTesting";
  filepath_Join := fun a b => (a ++ "/" ++ b)%string;
  fileName := fun lf => base EmptyString (path lf);
  node_RenterFilesGet := fun s => (files_at sc (requests s), served s);
  node_RenterDownloadsGet := fun s => (downloads_at sc (requests s), served s);
  node_RenterUploadPost := fun _ _ _ _ s => (upload_answer sc, s);
  node_RenterDownloadGet := fun _ _ _ _ _ s => (download_answer sc, s);
  node_RenterDownloadHTTPResponseGet := fun _ _ _ s => (stream_answer sc, s);
  node_ReadFile := fun p s => (disk sc p, s);
  node_NewFile := fun _ s => (newfile_answer sc, s);
  node_Intn := fun _ s => (random sc, s);
  node_Sleep := fun d s => mkState (requests s) (clock s + d)
|}.

(** A renter that tracks nothing, downloads nothing and stores nothing. *)
Definition unreachable : Err := New "connection refused".
Definition missing : Err := New "no such file".

Definition idle : script := {|
  files_at := fun _ => (mkRenterFiles [], None);
  downloads_at := fun _ => (mkRenterDownloadQueue [], None);
  upload_answer := None;
  download_answer := None;
  stream_answer := ([], None);
  disk := fun _ => ([], Some missing);
  newfile_answer := (None, Some missing);
  random := 7
|}.

(** A local file, its two bytes, and the remote file [Upload] makes of it. *)
Definition content : bytes := [Byte.x61; Byte.x62].
Definition lf0 : LocalFile := mkLocalFile "/tmp/SiaTesting/7" content.
Definition rf0 : RemoteFile := mkRemoteFile "7" content.

Definition half : float64 := Eval vm_compute in fdiv (float64_of_Z 1) (float64_of_Z 2).
Definition two : float64 := Eval vm_compute in float64_of_Z 2.

(** The file fully uploaded, and half uploaded. *)
Definition done : modules_FileInfo := mkFileInfo "7" 2 float64_one two.

(** A renter on which everything succeeds at once. *)
Definition healthy : script := {|
  files_at := fun _ => (mkRenterFiles [done], None);
  downloads_at := fun _ => (mkRenterDownloadQueue [], None);
  upload_answer := None;
  download_answer := None;
  stream_answer := (content, None);
  disk := fun _ => (content, None);
  newfile_answer := (Some lf0, None);
  random := 7
|}.

(** The same renter with the bytes altered on the way. *)
Definition corrupted : script := {|
  files_at := files_at healthy;
  downloads_at := downloads_at healthy;
  upload_answer := None;
  download_answer := None;
  stream_answer := ([Byte.x00], None);
  disk := fun _ => ([Byte.x00], None);
  newfile_answer := newfile_answer healthy;
  random := 7
|}.

(** A renter that downloads the remote file, but to another destination. *)
Definition stray : api_DownloadInfo :=
  mkDownloadInfo "7" "/tmp/SiaTesting/8" 2 2 0 0 false.

Definition elsewhere : script := {|
  files_at := files_at healthy;
  downloads_at := fun _ => (mkRenterDownloadQueue [stray], None);
  upload_answer := None;
  download_answer := None;
  stream_answer := (content, None);
  disk := fun _ => ([], Some missing);
  newfile_answer := newfile_answer healthy;
  random := 7
|}.

(** A renter whose record of the download breaks the three invariants:
    length 20 for a file size of 10, 10 bytes received for 5 transferred,
    completed with fewer bytes received than the length. *)
Definition broken : api_DownloadInfo :=
  mkDownloadInfo "7" "/tmp/SiaTesting/7" 20 10 10 5 true.

Definition inconsistent : script := {|
  files_at := files_at healthy;
  downloads_at := fun _ => (mkRenterDownloadQueue [stray; broken], None);
  upload_answer := None;
  download_answer := None;
  stream_answer := (content, None);
  disk := fun _ => (content, None);
  newfile_answer := newfile_answer healthy;
  random := 7
|}.


(** A renter that lists the file between another file and a second entry
    of the same path. *)
Definition other : modules_FileInfo := mkFileInfo "6" 9 float64_zero float64_zero.
Definition again : modules_FileInfo := mkFileInfo "7" 5 half half.

Definition crowded : script := {|
  files_at := fun _ => (mkRenterFiles [other; done; again], None);
  downloads_at := downloads_at healthy;
  upload_answer := None;
  download_answer := None;
  stream_answer := (content, None);
  disk := fun _ => (content, None);
  newfile_answer := newfile_answer healthy;
  random := 7
|}.

(** A renter that tracks the file and refuses uploads, downloads and
    fetches. *)
Definition refused : Err := New "renter refuses".

Definition refusing : script := {|
  files_at := files_at healthy;
  downloads_at := downloads_at healthy;
  upload_answer := Some refused;
  download_answer := Some refused;
  stream_answer := (content, Some refused);
  disk := fun _ => (content, None);
  newfile_answer := newfile_answer healthy;
  random := 7
|}.

(** A renter that accepts uploads and lists no file. *)
Definition unlisted : script := {|
  files_at := fun _ => (mkRenterFiles [], None);
  downloads_at := downloads_at healthy;
  upload_answer := None;
  download_answer := None;
  stream_answer := (content, None);
  disk := fun _ => (content, None);
  newfile_answer := newfile_answer healthy;
  random := 7
|}.

(** A renter that lists the download of the remote file to the local file
    as completed, as not completed, and as completed from its second
    answer on after failing to answer. *)
Definition complete : api_DownloadInfo :=
  mkDownloadInfo "7" "/tmp/SiaTesting/7" 2 2 2 2 true.
Definition incomplete : api_DownloadInfo :=
  mkDownloadInfo "7" "/tmp/SiaTesting/7" 2 2 1 1 false.

Definition finished : script := {|
  files_at := files_at healthy;
  downloads_at := fun _ => (mkRenterDownloadQueue [stray; complete], None);
  upload_answer := None;
  download_answer := None;
  stream_answer := (content, None);
  disk := fun _ => (content, None);
  newfile_answer := newfile_answer healthy;
  random := 7
|}.

Definition pending : script := {|
  files_at := files_at healthy;
  downloads_at := fun _ => (mkRenterDownloadQueue [stray; incomplete], None);
  upload_answer := None;
  download_answer := None;
  stream_answer := (content, None);
  disk := fun _ => (content, None);
  newfile_answer := newfile_answer healthy;
  random := 7
|}.

Definition late : script := {|
  files_at := files_at healthy;
  downloads_at := fun k =>
    match k with
    | O => (mkRenterDownloadQueue [], Some unreachable)
    | S _ => downloads_at finished k
    end;
  upload_answer := None;
  download_answer := None;
  stream_answer := (content, None);
  disk := fun _ => (content, None);
  newfile_answer := newfile_answer healthy;
  random := 7
|}.

(** A renter that reports the file fully uploaded with a redundancy of one
    half. *)
Definition thin : modules_FileInfo := mkFileInfo "7" 2 float64_one half.

Definition meagre : script := {|
  files_at := fun _ => (mkRenterFiles [thin], None);
  downloads_at := downloads_at healthy;
  upload_answer := None;
  download_answer := None;
  stream_answer := (content, None);
  disk := fun _ => (content, None);
  newfile_answer := newfile_answer healthy;
  random := 7
|}.

(** A node whose [NewFile] returns a nil file and a nil error. *)
Definition hollow : script := {|
  files_at := files_at healthy;
  downloads_at := downloads_at healthy;
  upload_answer := None;
  download_answer := None;
  stream_answer := (content, None);
  disk := fun _ => (content, None);
  newfile_answer := (None, None);
  random := 7
|}.

End Sim.

(** ** Facts about the data *)

Lemma bytes_eqb_eq (a b : bytes) : bytes_eqb a b = true <-> a = b.
Proof.
  revert b; induction a as [|x a IH]; intros [|y b]; simpl; split; intro E;
    try reflexivity; try discriminate.
  - apply andb_true_iff in E as [Exy Eab].
    apply Byte.byte_dec_bl in Exy. apply IH in Eab. now subst.
  - injection E as -> ->. apply andb_true_iff; split.
    + now apply Byte.byte_dec_lb.
    + now apply IH.
Qed.

Lemma bytes_eqb_neq (a b : bytes) : bytes_eqb a b = false <-> a <> b.
Proof.
  split.
  - intros E H. apply bytes_eqb_eq in H. congruence.
  - intro H. destruct (bytes_eqb a b) eqn:E; [|reflexivity].
    apply bytes_eqb_eq in E. contradiction.
Qed.

Lemma find_absent {A} (f : A -> bool) (l : list A) :
  (forall x, In x l -> f x = false) -> find f l = None.
Proof.
  induction l as [|x l IH]; simpl; intro H; [reflexivity|].
  rewrite (H x (or_introl eq_refl)). apply IH. intros y Hy. apply H. now right.
Qed.

Lemma matches_spec (lf : LocalFile) (rf : RemoteFile) (d : api_DownloadInfo) :
  matches lf rf d = true <->
  di_SiaPath d = siaPath rf /\ di_Destination d = path lf.
Proof.
  unfold matches. rewrite andb_true_iff, !String.eqb_eq. intuition congruence.
Qed.

Lemma AddContext_nil (s : string) : AddContext None s = None.
Proof. reflexivity. Qed.

Lemma AddContext_not_nil (err : error) (s : string) :
  err <> None -> AddContext err s <> None.
Proof. destruct err; simpl; congruence. Qed.

(** The sanity checks extend an error that is already there; starting from
    nil they leave nil, whatever the record holds. *)
Lemma sanity_nil (di : api_DownloadInfo) : sanity di None = None.
Proof.
  unfold sanity.
  destruct (negb (Z.eqb (di_Length di) (di_Filesize di)));
    destruct (Z.gtb (di_Received di) (di_TotalDataTransferred di));
    destruct (di_Completed di && negb (Z.eqb (di_Received di) (di_Length di)));
    reflexivity.
Qed.

(** [x < y] fails exactly when [y <= x], for numbers. *)
Lemma SFcompare_swap (x y : float64) :
  SFcompare y x = option_map CompOpp (SFcompare x y).
Proof.
  destruct x as [sx|sx| |sx mx ex], y as [sy|sy| |sy my ey]; simpl;
    try reflexivity;
    try (destruct sx; reflexivity); try (destruct sy; reflexivity);
    try (destruct sx, sy; reflexivity).
  f_equal.
  change (Pos.compare_cont Eq mx my) with (Pos.compare mx my).
  change (Pos.compare_cont Eq my mx) with (Pos.compare my mx).
  rewrite (Z.compare_antisym ey ex), (Pos.compare_antisym my mx).
  destruct sx, sy; try reflexivity;
    destruct (ey ?= ex)%Z; simpl; try reflexivity;
    now destruct (my ?= mx)%positive.
Qed.

Lemma not_below_ge (x y : float64) :
  is_nan x = false -> is_nan y = false ->
  (fltb x y = false <-> fgeb x y = true).
Proof.
  intros Hx Hy. unfold fltb, fgeb, SFltb, SFleb.
  rewrite (SFcompare_swap x y).
  destruct x as [sx|sx| |sx mx ex], y as [sy|sy| |sy my ey];
    try discriminate; simpl;
    repeat match goal with
    | |- context [match ?c with Eq => _ | Lt => _ | Gt => _ end] => destruct c; simpl
    | |- context [if ?b then _ else _] => destruct b; simpl
    end; split; congruence.
Qed.

(** ** Facts about the harness, over any node *)
Section Facts.

Context {Σ : Type} {node : Node Σ}.

Lemma FileInfo_run (rf : RemoteFile) (s : Σ) :
  FileInfo rf s =
  (Val (lookup rf (fst (node_RenterFilesGet s))), snd (node_RenterFilesGet s),
   [EvRenterFilesGet]).
Proof.
  unfold FileInfo, Files, RenterFilesGet, lookup, bind, call, ret.
  destruct (node_RenterFilesGet s) as [[files [e|]] s']; simpl; [reflexivity|].
  destruct (find _ _); reflexivity.
Qed.

Lemma DownloadInfo_run (lf : LocalFile) (rf : RemoteFile) (s : Σ) :
  DownloadInfo lf rf s =
  (Val (record lf rf (fst (node_RenterDownloadsGet s))),
   snd (node_RenterDownloadsGet s), [EvRenterDownloadsGet]).
Proof.
  unfold DownloadInfo, RenterDownloadsGet, record, bind, call, ret.
  destruct (node_RenterDownloadsGet s) as [[rdq [e|]] s']; simpl; [reflexivity|].
  destruct (find _ _); reflexivity.
Qed.

Lemma record_nil_error lf rf answer di :
  record lf rf answer = (di, None) -> di <> None.
Proof.
  unfold record. destruct answer as [rdq [e|]]; simpl; [discriminate|].
  destruct (find _ _); congruence.
Qed.

Lemma record_absent (lf : LocalFile) (rf : RemoteFile) (rdq : api_RenterDownloadQueue) :
  (forall d, In d (rdq_Downloads rdq) ->
             ~ (di_SiaPath d = siaPath rf /\ di_Destination d = path lf)) ->
  record lf rf (rdq, None) = (None, Some (New "download info not found")).
Proof.
  intro Habsent. unfold record; simpl.
  rewrite find_absent; [reflexivity|].
  intros d Hd. destruct (matches lf rf d) eqn:E; [|reflexivity].
  apply matches_spec in E. now apply Habsent in Hd.
Qed.

Lemma downloadCheck_run (lf : LocalFile) (rf : RemoteFile) (s : Σ) :
  downloadCheck lf rf s =
  (Val (judge (record lf rf (fst (node_RenterDownloadsGet s)))),
   snd (node_RenterDownloadsGet s), [EvRenterDownloadsGet]).
Proof.
  unfold downloadCheck, bind. rewrite DownloadInfo_run.
  destruct (record lf rf _) as [[file|] [e|]]; unfold judge; simpl;
    try reflexivity.
  destruct (di_Completed file); reflexivity.
Qed.

(** C10. [DownloadInfo] always returns, and never a nil record with a nil
    error: when the error is nil the record is there.  Hence the branch of
    the check of [WaitForDownload] that succeeds on a nil record is never
    taken: the check behaves the same whatever stands in that branch, and
    when it succeeds [DownloadInfo] has returned a completed record. *)
Theorem DownloadInfo_no_nil_nil (lf : LocalFile) (rf : RemoteFile) (s : Σ) :
  (exists di err,
      result (DownloadInfo lf rf s) = Val (di, err) /\
      (err = None -> di <> None)) /\
  (forall onNilRecord : M Σ error,
      downloadCheckWith onNilRecord lf rf s = downloadCheck lf rf s) /\
  (result (downloadCheck lf rf s) = Val None ->
   exists file,
     result (DownloadInfo lf rf s) = Val (Some file, None) /\
     di_Completed file = true).
Proof.
  rewrite downloadCheck_run, DownloadInfo_run. unfold result; simpl.
  destruct (record lf rf (fst (node_RenterDownloadsGet s))) as [di err] eqn:R.
  split; [|split].
  - exists di, err. split; [reflexivity|].
    intros ->. exact (record_nil_error _ _ _ _ R).
  - intro k. unfold downloadCheckWith, bind. rewrite DownloadInfo_run, R.
    destruct err as [e|]; [reflexivity|].
    destruct di as [file|]; [|now apply record_nil_error in R].
    unfold judge; simpl. destruct (di_Completed file); reflexivity.
  - unfold judge; simpl. destruct err as [e|]; [discriminate|].
    destruct di as [file|]; [|now apply record_nil_error in R].
    destruct (di_Completed file) eqn:C; [|discriminate].
    intros _. now exists file.
Qed.

(** C1, as the code has it.  When the renter's list of downloads is
    retrieved and holds no record with both the remote path and the local
    destination, [DownloadInfo] returns a nil record together with the
    error "download info not found", after that one request. *)
Theorem DownloadInfo_absent (lf : LocalFile) (rf : RemoteFile) (s s' : Σ)
  (rdq : api_RenterDownloadQueue) :
  node_RenterDownloadsGet s = ((rdq, None), s') ->
  (forall d, In d (rdq_Downloads rdq) ->
             ~ (di_SiaPath d = siaPath rf /\ di_Destination d = path lf)) ->
  DownloadInfo lf rf s =
  (Val (None, Some (New "download info not found")), s', [EvRenterDownloadsGet]).
Proof.
  intros Hget Habsent. rewrite DownloadInfo_run, Hget. cbn [fst snd].
  now rewrite (record_absent lf rf rdq Habsent).
Qed.

(** C3, as the code has it.  A record that is found is returned with a nil
    error whatever its fields are: no sanity check reports anything. *)
Theorem DownloadInfo_found_silent (lf : LocalFile) (rf : RemoteFile) (s s' : Σ)
  (rdq : api_RenterDownloadQueue) (di : api_DownloadInfo) :
  node_RenterDownloadsGet s = ((rdq, None), s') ->
  find (matches lf rf) (rdq_Downloads rdq) = Some di ->
  DownloadInfo lf rf s = (Val (Some di, None), s', [EvRenterDownloadsGet]).
Proof.
  intros Hget Hfind. rewrite DownloadInfo_run, Hget. unfold record; simpl.
  now rewrite Hfind, sanity_nil.
Qed.

(** *** Runs of the retry engine *)

Lemma retryLoop_step (n : nat) (interval : Duration) (check : M Σ error) (s : Σ) :
  retryLoop (S n) interval check s =
  match check s with
  | (Val None, s1, t1) => (Val None, s1, t1)
  | (Val (Some e), s1, t1) =>
      match n with
      | O => (Val (Some e), s1, t1)
      | S _ =>
          let r := retryLoop n interval check (node_Sleep interval s1) in
          (result r, final r, t1 ++ EvSleep interval :: trace r)
      end
  | (Panic, s1, t1) => (Panic, s1, t1)
  end.
Proof.
  simpl. unfold bind at 1.
  destruct (check s) as [[[[e|]|] s1] t1]; try reflexivity.
  - destruct n as [|n]; [unfold ret; now rewrite app_nil_r|].
    unfold bind, Sleep, call.
    destruct (retryLoop (S n) interval check (node_Sleep interval s1)) as [[r s2] t2].
    reflexivity.
  - unfold ret. now rewrite app_nil_r.
Qed.

(** With one attempt the engine is its check. *)
Lemma retryLoop_one (interval : Duration) (check : M Σ error) (s : Σ) :
  retryLoop 1 interval check s = check s.
Proof.
  rewrite retryLoop_step. now destruct (check s) as [[[[e|]|] s1] t1].
Qed.

(** A run with a budget of [S n] makes between 1 and [S n] attempts, and
    stops short of the budget only on an attempt that did not fail. *)
Lemma retryLoop_polled (n : nat) (interval : Duration) (check : M Σ error) (s : Σ) :
  exists k : nat,
    (1 <= k <= S n)%nat /\
    Polled interval check k s (retryLoop (S n) interval check s) /\
    ((k < S n)%nat -> ~ failed (result (retryLoop (S n) interval check s))).
Proof.
  revert s; induction n as [|n IH]; intro s.
  - exists 1%nat. rewrite retryLoop_one. repeat split; try lia. constructor.
  - destruct (check s) as [[[[e|]|] s1] t1] eqn:C; rewrite retryLoop_step, C.
    + destruct (IH (node_Sleep interval s1)) as (k & Hk & HP & Hstop).
      destruct (retryLoop (S n) interval check (node_Sleep interval s1))
        as [[r s2] t2] eqn:R.
      exists (S k). simpl. split; [lia|]. split.
      * eapply Polled_again; eassumption.
      * intro Hlt. apply Hstop. lia.
    + exists 1%nat. split; [lia|]. split.
      * pose proof (Polled_last interval check s) as P. rewrite C in P. exact P.
      * intros _ [e H]. discriminate H.
    + exists 1%nat. split; [lia|]. split.
      * pose proof (Polled_last interval check s) as P. rewrite C in P. exact P.
      * intros _ [e H]. discriminate H.
Qed.

(** The result of a run is the result of its last attempt, which is where
    the run's trace ends. *)
Lemma Polled_last_attempt (interval : Duration) (check : M Σ error) (k : nat)
  (s : Σ) (r : outcome error * Σ * list Event) :
  Polled interval check k s r ->
  exists s0 t0,
    check s0 = (result r, final r, trace (check s0)) /\
    trace r = t0 ++ trace (check s0).
Proof.
  induction 1 as [s|k s s1 s2 e t1 t2 r C HP (s0 & t0 & Hc & Ht)].
  - exists s, []. split; [|reflexivity].
    now destruct (check s) as [[r s1] t1].
  - exists s0, (t1 ++ EvSleep interval :: t0). split; [exact Hc|].
    unfold trace in *; simpl in *. rewrite Ht. now rewrite <- app_assoc.
Qed.

Lemma Polled_trace (ev : Event) (interval : Duration) (check : M Σ error) (k : nat)
  (s : Σ) (r : outcome error * Σ * list Event) :
  (forall s0, trace (check s0) = [ev]) ->
  Polled interval check k s r ->
  (1 <= k)%nat /\ trace r = pollTrace ev interval k.
Proof.
  intro Hev. induction 1 as [s|k s s1 s2 e t1 t2 r C HP [Hk IH]].
  - split; [lia|]. apply Hev.
  - split; [lia|]. unfold trace in *; simpl in *.
    specialize (Hev s). rewrite C in Hev; simpl in Hev. subst t1.
    rewrite IH. destruct k as [|k]; [lia|]. reflexivity.
Qed.

Lemma count_pollTrace_ev (ev : Event) (p : Event -> bool) (interval : Duration) (k : nat) :
  p ev = true -> p (EvSleep interval) = false ->
  count p (pollTrace ev interval k) = k.
Proof.
  intros Hev Hsl. unfold count.
  induction k as [|k IH]; [reflexivity|].
  destruct k as [|k]; simpl in *; rewrite Hev; simpl; [reflexivity|].
  rewrite Hsl. now rewrite IH.
Qed.

Lemma count_pollTrace_sleep (ev : Event) (interval : Duration) (k : nat) :
  is_sleep ev = false ->
  count is_sleep (pollTrace ev interval k) = pred k.
Proof.
  intros Hev. unfold count.
  induction k as [|k IH]; [reflexivity|].
  destruct k as [|k]; simpl in *; rewrite Hev; simpl; [reflexivity|].
  now rewrite IH.
Qed.

Lemma count_pollTrace_none (ev : Event) (p : Event -> bool) (interval : Duration)
  (k : nat) :
  p ev = false -> p (EvSleep interval) = false ->
  count p (pollTrace ev interval k) = O.
Proof.
  intros Hev Hsl. unfold count.
  induction k as [|k IH]; [reflexivity|].
  destruct k as [|k]; simpl in *; rewrite Hev; simpl; [reflexivity|].
  rewrite Hsl. now rewrite IH.
Qed.

Lemma pollTrace_interval (ev : Event) (interval : Duration) (k : nat) :
  is_sleep ev = false ->
  Forall (fun e => is_sleep e = true -> e = EvSleep interval)
         (pollTrace ev interval k).
Proof.
  intro Hev. induction k as [|k IH]; [constructor|].
  destruct k as [|k]; simpl.
  - constructor; [congruence|constructor].
  - constructor; [congruence|]. constructor; [reflexivity|]. exact IH.
Qed.

Lemma Retry_positive (maxAttempts : Z) (interval : Duration) (check : M Σ error) :
  1 <= maxAttempts ->
  Retry maxAttempts interval check =
  retryLoop (S (Z.to_nat (maxAttempts - 1))) interval check.
Proof.
  intro H. unfold Retry. f_equal.
  rewrite <- Z2Nat.inj_succ by lia. f_equal. lia.
Qed.

Lemma call_trace {A} (ev : Event) (f : Σ -> A * Σ) (s : Σ) :
  trace (call ev f s) = [ev].
Proof. unfold call, trace. now destruct (f s). Qed.

(** C9. With [maxAttempts = 1] the engine runs its check exactly once and
    does nothing else, whatever the check returns.  With a budget of
    [maxAttempts >= 1] it makes [k] attempts, [1 <= k <= maxAttempts]: each
    attempt before the last failed and was followed by one suspension of
    [interval], no suspension follows the last, and the run stops before the
    budget is spent only on an attempt that did not fail.  Counted on a
    check that is one recorded call: at most [maxAttempts] checks, and one
    suspension less than checks. *)
Theorem Retry_attempts (interval : Duration) (check : M Σ error) (s : Σ) :
  Retry 1 interval check s = check s /\
  (forall maxAttempts : Z,
      1 <= maxAttempts ->
      exists k : nat,
        (1 <= k)%nat /\ Z.of_nat k <= maxAttempts /\
        Polled interval check k s (Retry maxAttempts interval check s) /\
        (Z.of_nat k < maxAttempts ->
         ~ failed (result (Retry maxAttempts interval check s)))) /\
  (forall (f : Σ -> error * Σ) (maxAttempts : Z),
      let t := trace (Retry maxAttempts interval (call EvCheck f) s) in
      Z.of_nat (count is_check t) <= Z.max 0 maxAttempts /\
      count is_sleep t = pred (count is_check t) /\
      (maxAttempts = 1 -> count is_check t = 1%nat /\ count is_sleep t = 0%nat)).
Proof.
  split; [|split].
  - apply retryLoop_one.
  - intros n Hn. rewrite (Retry_positive n) by exact Hn.
    destruct (retryLoop_polled (Z.to_nat (n - 1)) interval check s)
      as (k & Hk & HP & Hstop).
    exists k. repeat split; try lia; try exact HP.
    intro Hlt. apply Hstop. lia.
  - intros f n t. subst t.
    destruct (Z_le_gt_dec 1 n) as [Hn|Hn].
    + rewrite (Retry_positive n) by exact Hn.
      destruct (retryLoop_polled (Z.to_nat (n - 1)) interval (call EvCheck f) s)
        as (k & Hk & HP & _).
      apply (Polled_trace EvCheck) in HP as [_ ->]; [|intro; apply call_trace].
      rewrite (count_pollTrace_ev EvCheck is_check), count_pollTrace_sleep
        by reflexivity.
      split; [lia|]. split; [reflexivity|].
      intros ->. simpl in Hk. assert (k = 1%nat) as -> by lia.
      split; reflexivity.
    + unfold Retry. replace (Z.to_nat n) with O by lia. simpl.
      split; [lia|]. split; [reflexivity|]. lia.
Qed.

(** *** Waiting for a download *)

Lemma downloadCheck_trace (lf : LocalFile) (rf : RemoteFile) (s : Σ) :
  trace (downloadCheck lf rf s) = [EvRenterDownloadsGet].
Proof. now rewrite downloadCheck_run. Qed.

Lemma downloadCheck_absent (lf : LocalFile) (rf : RemoteFile) (s : Σ) :
  never_listed lf rf ->
  result (downloadCheck lf rf s) = Val (Some not_retrieved).
Proof.
  intro H. destruct (H s) as (rdq & s1 & Hget & Habsent).
  rewrite downloadCheck_run, Hget. cbn [fst].
  now rewrite (record_absent lf rf rdq Habsent).
Qed.

(** C2, as the code has it.  When the renter never lists a download of the
    remote file to the local file, every poll of [WaitForDownload] fails:
    the whole budget is spent (1000 requests, 999 suspensions of 100ms), the
    error of the last poll is returned and the file is never read. *)
Theorem WaitForDownload_absent_fails (lf : LocalFile) (rf : RemoteFile) (s : Σ) :
  never_listed lf rf ->
  let r := WaitForDownload lf rf s in
  result r = Val (Some not_retrieved) /\
  count is_downloads_get (trace r) = 1000%nat /\
  count is_sleep (trace r) = 999%nat /\
  Forall (fun ev => is_sleep ev = true -> ev = EvSleep (100 * Millisecond)) (trace r) /\
  count is_read (trace r) = 0%nat.
Proof.
  intros H r. subst r. unfold WaitForDownload, bind.
  rewrite (Retry_positive 1000) by lia.
  remember (Z.to_nat (1000 - 1)) as n eqn:En.
  assert (Hn : S n = 1000%nat) by (subst n; reflexivity).
  destruct (retryLoop_polled n (100 * Millisecond) (downloadCheck lf rf) s)
    as (k & Hk & HP & Hstop).
  destruct (Polled_last_attempt _ _ _ _ _ HP) as (s0 & t0 & Hlast & _).
  pose proof (downloadCheck_absent lf rf s0 H) as Hfail.
  rewrite Hlast in Hfail.
  assert (k = S n) as ->.
  { destruct (Nat.eq_dec k (S n)) as [->|Hne]; [reflexivity|].
    exfalso. apply Hstop; [lia|]. now exists not_retrieved. }
  apply (Polled_trace EvRenterDownloadsGet) in HP as [_ Ht];
    [|apply downloadCheck_trace].
  clear Hlast Hstop.
  destruct (retryLoop (S n) _ _ s) as [[r s2] t2].
  unfold result in Hfail; unfold trace in Ht; cbn [fst snd] in Hfail, Ht.
  subst r t2. unfold ret, result, trace; cbn [fst snd].
  rewrite app_nil_r.
  split; [reflexivity|].
  split; [rewrite <- Hn; now apply count_pollTrace_ev|].
  split; [rewrite count_pollTrace_sleep by reflexivity; now rewrite Hn|].
  split; [now apply pollTrace_interval|].
  now apply count_pollTrace_none.
Qed.

(** *** Waiting for an upload *)

Lemma WaitForUploadProgress_shape (rf : RemoteFile) (progress : float64) :
  WaitForUploadProgress rf progress =
  waitFor progressFormat fi_UploadProgress rf progress.
Proof. reflexivity. Qed.

Lemma WaitForUploadRedundancy_shape (rf : RemoteFile) (redundancy : float64) :
  WaitForUploadRedundancy rf redundancy =
  waitFor redundancyFormat fi_Redundancy rf redundancy.
Proof. reflexivity. Qed.

Lemma thresholdCheck_run format observed (rf : RemoteFile) (target : float64) (s : Σ) :
  thresholdCheck format observed rf target s =
  (Val (verdict format observed target (lookup rf (fst (node_RenterFilesGet s)))),
   snd (node_RenterFilesGet s), [EvRenterFilesGet]).
Proof.
  unfold thresholdCheck, bind. rewrite FileInfo_run.
  destruct (lookup rf _) as [file [e|]]; simpl; [reflexivity|].
  destruct (fltb _ _); reflexivity.
Qed.

Lemma waitFor_untracked format observed (rf : RemoteFile) (target : float64) (s : Σ)
  (fi : modules_FileInfo) (e : Err) :
  result (FileInfo rf s) = Val (fi, Some e) ->
  waitFor format observed rf target s =
  (Val (Some untracked), final (FileInfo rf s), [EvRenterFilesGet]).
Proof.
  unfold waitFor, bind. rewrite FileInfo_run. unfold result, final; simpl.
  intro H. injection H as ->. reflexivity.
Qed.

Lemma waitFor_tracked format observed (rf : RemoteFile) (target : float64) (s : Σ)
  (fi : modules_FileInfo) :
  result (FileInfo rf s) = Val (fi, None) ->
  polling (waitFor format observed rf target) format observed rf target s.
Proof.
  intro Htracked. unfold polling, waitFor, bind.
  set (check := thresholdCheck format observed rf target).
  rewrite FileInfo_run in *. unfold result, final in *; cbn [fst snd] in *.
  injection Htracked as ->. cbn [snd].
  set (s1 := snd (node_RenterFilesGet s)).
  rewrite (Retry_positive 1000) by lia.
  remember (Z.to_nat (1000 - 1)) as n eqn:En.
  assert (Hn : S n = 1000%nat) by (subst n; reflexivity).
  destruct (retryLoop_polled n (100 * Millisecond) check s1)
    as (k & Hk & HP & Hstop).
  destruct (Polled_last_attempt _ _ _ _ _ HP) as (s0 & t0 & Hlast & _).
  pose proof HP as HT.
  apply (Polled_trace EvRenterFilesGet) in HT as [_ Ht];
    [|intro; unfold check; now rewrite thresholdCheck_run].
  unfold check in Hlast. rewrite thresholdCheck_run in Hlast.
  fold check in Hlast.
  exists k, s0, (lookup rf (fst (node_RenterFilesGet s0))).
  destruct (retryLoop (S n) _ check s1) as [[r s2] t2] eqn:R.
  unfold result, final, trace in *; cbn [fst snd] in *.
  injection Hlast as Hr Hs. subst t2.
  split; [lia|]. split; [exact HP|]. split; [reflexivity|].
  rewrite FileInfo_run; cbn [fst snd].
  split; [reflexivity|]. split; [now symmetry|]. split; [now symmetry|].
  intro Hlt. destruct r as [[e|]|]; [|reflexivity|].
  - exfalso. apply Hstop; [lia|]. now exists e.
  - rewrite <- Hr in *. discriminate.
Qed.

(** A wait that succeeds ends on a poll that found the file tracked and its
    observed value not below the target. *)
Lemma waitFor_success format observed (rf : RemoteFile) (target : float64)
  (s s' : Σ) (t : list Event) :
  waitFor format observed rf target s = (Val None, s', t) ->
  exists (s0 : Σ) (file : modules_FileInfo),
    FileInfo rf s0 = (Val (file, None), s', [EvRenterFilesGet]) /\
    fltb (observed file) target = false.
Proof.
  intro Hrun.
  destruct (lookup rf (fst (node_RenterFilesGet s))) as [fi [e|]] eqn:L.
  - rewrite (waitFor_untracked _ _ _ _ _ fi e) in Hrun; [discriminate|].
    rewrite FileInfo_run. unfold result; simpl. now rewrite L.
  - destruct (waitFor_tracked format observed rf target s fi)
      as (k & s0 & [file err] & _ & _ & _ & Hr0 & Hfin & Hres & _).
    { rewrite FileInfo_run. unfold result; simpl. now rewrite L. }
    rewrite Hrun in Hfin, Hres. unfold result, final in Hfin, Hres; simpl in *.
    exists s0, file. rewrite FileInfo_run in *.
    unfold result in Hr0; simpl in Hr0. injection Hr0 as Hr0. rewrite Hr0.
    destruct err as [e|]; [discriminate|].
    destruct (fltb (observed file) target); [discriminate|].
    split; [now rewrite Hfin|reflexivity].
Qed.


(** *** Downloading *)

Lemma checkIntegrity_run (lf : LocalFile) (s : Σ) :
  checkIntegrity lf s =
  (Val (integrity lf (fst (node_ReadFile (path lf) s))),
   snd (node_ReadFile (path lf) s), [EvReadFile (path lf)]).
Proof.
  unfold checkIntegrity, ReadFile, integrity, bind, call, ret.
  destruct (node_ReadFile (path lf) s) as [[data [e|]] s']; simpl; [reflexivity|].
  destruct (bytes_eqb _ _); reflexivity.
Qed.

(** C4. When the file is tracked and the fetch of its bytes succeeds,
    [DownloadByStream] returns these bytes, and returns no error exactly
    when their hash is the remote file's checksum; otherwise the error is
    the harness's own "downloaded bytes don't match requested data", not an
    error of the transport. *)
Theorem DownloadByStream_checksum (rf : RemoteFile) (s s1 s2 : Σ)
  (fi : modules_FileInfo) (t1 : list Event) (data : bytes) :
  FileInfo rf s = (Val (fi, None), s1, t1) ->
  node_RenterDownloadHTTPResponseGet (siaPath rf) 0 (fi_Filesize fi) s1 =
    ((data, None), s2) ->
  exists err : error,
    DownloadByStream rf s =
      (Val (data, err), s2,
       t1 ++ [EvRenterDownloadHTTPResponseGet (siaPath rf) 0 (fi_Filesize fi)]) /\
    (err = None <-> HashAll data = rf_checksum rf) /\
    (err <> None -> err = Some mismatch).
Proof.
  intros Hfi Hget.
  unfold DownloadByStream, RenterDownloadHTTPResponseGet, bind, call.
  rewrite Hfi, Hget. simpl.
  destruct (bytes_eqb (rf_checksum rf) (HashAll data)) eqn:E; simpl.
  - exists None. apply bytes_eqb_eq in E. repeat split; congruence.
  - exists (Some mismatch). apply bytes_eqb_neq in E.
    repeat split; congruence.
Qed.

(** C7. When the file is tracked and the download is accepted by the
    renter: an asynchronous [DownloadToDisk] returns the local file with a
    nil error in the state the submission left, without reading the file; a
    blocking one runs the integrity checker on the local file and returns
    the local file together with the checker's error in context, which is
    not nil when the checksum of the file read differs from the expected
    one. *)
Theorem DownloadToDisk_submitted (rf : RemoteFile) (async : bool) (s s1 s2 s3 : Σ)
  (fi : modules_FileInfo) (t1 : list Event) (n : Z) :
  let dest := filepath_Join SiaTestingDir (Itoa n) in
  let lf := {| path := dest; checksum := rf_checksum rf |} in
  let submit :=
    [EvIntn MaxInt32; EvRenterDownloadGet (siaPath rf) dest 0 (fi_Filesize fi) async] in
  FileInfo rf s = (Val (fi, None), s1, t1) ->
  node_Intn MaxInt32 s1 = (n, s2) ->
  node_RenterDownloadGet (siaPath rf) dest 0 (fi_Filesize fi) async s2 = (None, s3) ->
  if async
  then DownloadToDisk rf async s = (Val (Some lf, None), s3, t1 ++ submit)
  else
    exists err : error,
      result (checkIntegrity lf s3) = Val err /\
      DownloadToDisk rf async s =
        (Val (Some lf, AddContext err unverified), final (checkIntegrity lf s3),
         t1 ++ submit ++ trace (checkIntegrity lf s3)) /\
      (forall data s4,
          node_ReadFile dest s3 = ((data, None), s4) ->
          fileChecksum data <> rf_checksum rf ->
          AddContext err unverified = Some (Context IntegrityMismatch unverified)).
Proof.
  intros dest lf submit Hfi Hrand Hget.
  unfold DownloadToDisk, Intn, RenterDownloadGet, bind, call.
  rewrite Hfi, Hrand. fold dest. rewrite Hget. fold lf.
  destruct async; [reflexivity|].
  rewrite checkIntegrity_run. unfold result, final, trace; cbn [fst snd].
  exists (integrity lf (fst (node_ReadFile (path lf) s3))).
  split; [reflexivity|]. split.
  - destruct (integrity lf _); reflexivity.
  - intros data s4 Hread Hneq. change (path lf) with dest. rewrite Hread.
    simpl. apply bytes_eqb_neq in Hneq.
    change (checksum lf) with (rf_checksum rf). now rewrite Hneq.
Qed.

(** *** Uploading *)

Lemma Upload_run (lf : LocalFile) (d p : uint64) (s : Σ) :
  Upload lf d p s =
  let post := EvRenterUploadPost (path lf) ("/" ++ fileName lf)%string d p in
  match node_RenterUploadPost (path lf) ("/" ++ fileName lf)%string d p s with
  | (Some e, s1) => (Val (None, Some e), s1, [post])
  | (None, s1) =>
      (Val (Some (remote lf),
            AddContext (snd (lookup (remote lf) (fst (node_RenterFilesGet s1))))
                       not_tracked),
       snd (node_RenterFilesGet s1), [post; EvRenterFilesGet])
  end.
Proof.
  unfold Upload, RenterUploadPost, bind, call. fold (remote lf).
  destruct (node_RenterUploadPost _ _ d p s) as [[e|] s1]; [reflexivity|].
  rewrite FileInfo_run.
  destruct (lookup (remote lf) _) as [fi [e|]]; reflexivity.
Qed.

Lemma lookup_untracked (rf : RemoteFile) (files : api_RenterFiles) :
  (forall f, In f (rf_Files files) -> fi_SiaPath f <> siaPath rf) ->
  lookup rf (files, None) =
  (FileInfo_zero, Some (New "file is not tracked by the renter")).
Proof.
  intro H. unfold lookup; simpl. rewrite find_absent; [reflexivity|].
  intros f Hf. apply String.eqb_neq. now apply H.
Qed.

(** C8. When the renter accepts the upload and then [FileInfo] fails for
    the new remote file, [Upload] returns that remote file, whose path is
    the local file's name and whose checksum is the local file's, together
    with the error of [FileInfo] in the context "uploaded file is not
    tracked by the renter"; when the renter's list was retrieved without
    the file, that error is "file is not tracked by the renter". *)
Theorem Upload_untracked (lf : LocalFile) (d p : uint64) (s s1 : Σ) :
  let post := EvRenterUploadPost (path lf) ("/" ++ fileName lf)%string d p in
  let rf := {| siaPath := fileName lf; rf_checksum := checksum lf |} in
  node_RenterUploadPost (path lf) ("/" ++ fileName lf)%string d p s = (None, s1) ->
  (forall fi e,
      result (FileInfo rf s1) = Val (fi, Some e) ->
      Upload lf d p s =
        (Val (Some rf, Some (Context e not_tracked)), final (FileInfo rf s1),
         [post; EvRenterFilesGet])) /\
  (forall files s2,
      node_RenterFilesGet s1 = ((files, None), s2) ->
      (forall f, In f (rf_Files files) -> fi_SiaPath f <> fileName lf) ->
      Upload lf d p s =
        (Val (Some rf,
              Some (Context (New "file is not tracked by the renter") not_tracked)),
         s2, [post; EvRenterFilesGet])).
Proof.
  intros post rf Hpost. fold (remote lf) in rf. subst rf.
  rewrite Upload_run, Hpost. fold post. split.
  - intros fi e. rewrite FileInfo_run. unfold result, final; cbn [fst snd].
    intro H. injection H as ->. reflexivity.
  - intros files s2 Hget Habsent. rewrite Hget; cbn [fst snd].
    now rewrite (lookup_untracked (remote lf) files Habsent).
Qed.

Lemma UploadNewFile_run (filesize : Z) (d p : uint64) (s : Σ) :
  UploadNewFile filesize d p s =
  match node_NewFile filesize s with
  | ((_, Some e), s1) =>
      (Val (None, Some (Context e "failed to create file")), s1, [EvNewFile filesize])
  | ((None, None), s1) => (Panic, s1, [EvNewFile filesize])
  | ((Some lf, None), s1) =>
      match Upload lf d p s1 with
      | (Val (rf, err), s2, t2) =>
          (Val (rf, AddContext err "failed to start upload"), s2,
           EvNewFile filesize :: t2)
      | (Panic, s2, t2) => (Panic, s2, EvNewFile filesize :: t2)
      end
  end.
Proof.
  unfold UploadNewFile, NewFile, bind, call.
  destruct (node_NewFile filesize s) as [[[lf|] [e|]] s1]; try reflexivity.
  simpl. destruct (Upload lf d p s1) as [[[[rf [e|]]|] s2] t2];
    simpl; now rewrite ?app_nil_r.
Qed.

(** C5, as the code has it.  [UploadNewFileBlocking] returns a nil error
    exactly when these four steps succeed one after the other: the new
    local file is created, it is uploaded, the wait for progress [1]
    succeeds, then the wait for the redundancy
    [float64((d+p) mod 2^64)/float64(d)] succeeds.  It then returns the
    uploaded remote file, and each wait ended on a poll whose observed value
    was not below its target; not below is at least, for numbers. *)
Theorem UploadNewFileBlocking_steps (filesize : Z) (d p : uint64) (s : Σ) :
  let one := float64_of_Z 1 in
  let target := fdiv (float64_of_Z ((d + p) mod 2 ^ 64)) (float64_of_Z d) in
  (forall rf s' t,
      UploadNewFileBlocking filesize d p s = (Val (rf, None), s', t) ->
      exists lf r s1 s2 s3 t2 t3 t4,
        steps filesize d p s lf r s1 s2 s3 s' t2 t3 t4 /\
        rf = Some r /\
        t = EvNewFile filesize :: t2 ++ t3 ++ t4 /\
        (exists s0 file,
            FileInfo r s0 = (Val (file, None), s3, [EvRenterFilesGet]) /\
            fltb (fi_UploadProgress file) one = false) /\
        (exists s0 file,
            FileInfo r s0 = (Val (file, None), s', [EvRenterFilesGet]) /\
            fltb (fi_Redundancy file) target = false)) /\
  (forall lf r s1 s2 s3 s' t2 t3 t4,
      steps filesize d p s lf r s1 s2 s3 s' t2 t3 t4 ->
      UploadNewFileBlocking filesize d p s =
        (Val (Some r, None), s', EvNewFile filesize :: t2 ++ t3 ++ t4)) /\
  (forall x : float64,
      is_nan x = false -> (fltb x one = false <-> fgeb x one = true)) /\
  (forall x : float64,
      is_nan x = false -> is_nan target = false ->
      (fltb x target = false <-> fgeb x target = true)).
Proof.
  intros one target.
  change one with float64_one. change target with (fullRedundancy d p).
  clear one target. unfold steps.
  change (float64_of_Z 1) with float64_one.
  change (fdiv (float64_of_Z ((d + p) mod 2 ^ 64)) (float64_of_Z d))
    with (fullRedundancy d p).
  split; [|split; [|split]].
  - intros rf s' t H. unfold UploadNewFileBlocking, bind in H.
    rewrite UploadNewFile_run in H.
    destruct (node_NewFile filesize s) as [[[lf|] [e|]] s1] eqn:HN;
      try discriminate H.
    destruct (Upload lf d p s1) as [[[[r0 [e|]]|] s2] t2] eqn:HU;
      try discriminate H.
    destruct r0 as [r|]; [|discriminate H]. simpl in H.
    destruct (WaitForUploadProgress r float64_one s2)
      as [[[[e|]|] s3] t3] eqn:HP; try discriminate H.
    destruct (WaitForUploadRedundancy r (fullRedundancy d p) s3)
      as [[[err|] s4] t4] eqn:HR; try discriminate H.
    unfold ret in H. injection H as <- -> <- <-.
    exists lf, r, s1, s2, s3, t2, t3, t4.
    split; [now repeat split|]. split; [reflexivity|].
    split; [now rewrite !app_nil_r|].
    rewrite WaitForUploadProgress_shape in HP.
    rewrite WaitForUploadRedundancy_shape in HR.
    apply waitFor_success in HP as (sp & fp & HFp & Hp).
    apply waitFor_success in HR as (sr & fr & HFr & Hr).
    split; [now exists sp, fp|now exists sr, fr].
  - intros lf r s1 s2 s3 s' t2 t3 t4 (HN & HU & HP & HR).
    unfold UploadNewFileBlocking, bind. rewrite UploadNewFile_run, HN, HU.
    simpl. rewrite HP, HR. unfold ret. now rewrite !app_nil_r.
  - intros x Hx. now apply not_below_ge.
  - intros x Hx Ht. now apply not_below_ge.
Qed.

End Facts.

(** ** Runs on the scripted node *)

(** The target of [UploadNewFileBlocking] for 2 data and 2 parity pieces is
    2, and a sum of pieces below [2^64] is not wrapped. *)
Example fullRedundancy_2_2 : fullRedundancy 2 2 = Sim.two.
Proof. reflexivity. Qed.

Lemma add64_exact (d p : uint64) : 0 <= d + p < 2 ^ 64 -> add64 d p = d + p.
Proof. intro H. unfold add64, wrap64. now apply Z.mod_small. Qed.

(** The renter lists one download of the remote file, to another
    destination: [DownloadInfo] returns no record, and an error. *)
Lemma DownloadInfo_absent_returns_error :
  let r := DownloadInfo (node := Sim.node Sim.elsewhere) Sim.lf0 Sim.rf0 Sim.start in
  fst (Sim.downloads_at Sim.elsewhere 0) = mkRenterDownloadQueue [Sim.stray] /\
  matches Sim.lf0 Sim.rf0 Sim.stray = false /\
  result r = Val (None, Some (New "download info not found")) /\
  result r <> Val (None, None).
Proof. repeat split. discriminate. Qed.

Lemma DownloadInfo_absent_witness :
  DownloadInfo (node := Sim.node Sim.elsewhere) Sim.lf0 Sim.rf0 Sim.start =
  (Val (None, Some (New "download info not found")), Sim.served Sim.start,
   [EvRenterDownloadsGet]).
Proof.
  apply (DownloadInfo_absent (node := Sim.node Sim.elsewhere) Sim.lf0 Sim.rf0
           Sim.start (Sim.served Sim.start) (mkRenterDownloadQueue [Sim.stray])).
  - reflexivity.
  - intros d [<-|[]] [_ H]. discriminate H.
Defined.

Lemma WaitForDownload_absent_fails_witness :
  never_listed (node := Sim.node Sim.elsewhere) Sim.lf0 Sim.rf0 /\
  let r := WaitForDownload (node := Sim.node Sim.elsewhere) Sim.lf0 Sim.rf0 Sim.start in
  result r = Val (Some not_retrieved) /\
  count is_downloads_get (trace r) = 1000%nat /\
  count is_sleep (trace r) = 999%nat /\
  Forall (fun ev => is_sleep ev = true -> ev = EvSleep (100 * Millisecond)) (trace r) /\
  count is_read (trace r) = 0%nat.
Proof.
  assert (H : never_listed (node := Sim.node Sim.elsewhere) Sim.lf0 Sim.rf0).
  { intro s0. exists (mkRenterDownloadQueue [Sim.stray]), (Sim.served s0).
    split; [reflexivity|]. intros d [<-|[]] [_ H]. discriminate H. }
  split; [exact H|].
  exact (WaitForDownload_absent_fails (node := Sim.node Sim.elsewhere)
           Sim.lf0 Sim.rf0 Sim.start H).
Defined.

Lemma DownloadInfo_found_silent_witness :
  (di_Length Sim.broken <> di_Filesize Sim.broken /\
   di_Received Sim.broken > di_TotalDataTransferred Sim.broken /\
   di_Completed Sim.broken = true /\ di_Received Sim.broken <> di_Length Sim.broken) /\
  DownloadInfo (node := Sim.node Sim.inconsistent) Sim.lf0 Sim.rf0 Sim.start =
  (Val (Some Sim.broken, None), Sim.served Sim.start, [EvRenterDownloadsGet]).
Proof.
  split; [repeat split; simpl; lia|].
  apply (DownloadInfo_found_silent (node := Sim.node Sim.inconsistent)
           Sim.lf0 Sim.rf0 Sim.start (Sim.served Sim.start)
           (mkRenterDownloadQueue [Sim.stray; Sim.broken])); reflexivity.
Defined.

Lemma DownloadByStream_checksum_witness :
  exists err : error,
    DownloadByStream (node := Sim.node Sim.corrupted) Sim.rf0 Sim.start =
      (Val ([Byte.x00], err), Sim.served Sim.start,
       [EvRenterFilesGet] ++ [EvRenterDownloadHTTPResponseGet "7" 0 2]) /\
    (err = None <-> [Byte.x00] = Sim.content) /\
    (err <> None -> err = Some mismatch).
Proof.
  apply (DownloadByStream_checksum (node := Sim.node Sim.corrupted) Sim.rf0
           Sim.start (Sim.served Sim.start) (Sim.served Sim.start) Sim.done
           [EvRenterFilesGet] [Byte.x00]); reflexivity.
Defined.

Lemma DownloadToDisk_submitted_witness :
  exists err : error,
    result (checkIntegrity (node := Sim.node Sim.corrupted) Sim.lf0 (Sim.served Sim.start))
      = Val err /\
    DownloadToDisk (node := Sim.node Sim.corrupted) Sim.rf0 false Sim.start =
      (Val (Some Sim.lf0, AddContext err unverified),
       final (checkIntegrity (node := Sim.node Sim.corrupted) Sim.lf0
                             (Sim.served Sim.start)),
       [EvRenterFilesGet] ++
       [EvIntn MaxInt32; EvRenterDownloadGet "7" "/tmp/SiaTesting/7" 0 2 false] ++
       trace (checkIntegrity (node := Sim.node Sim.corrupted) Sim.lf0
                             (Sim.served Sim.start))) /\
    (forall data s4,
        node_ReadFile (Node := Sim.node Sim.corrupted) "/tmp/SiaTesting/7"
                      (Sim.served Sim.start) = ((data, None), s4) ->
        data <> Sim.content ->
        AddContext err unverified = Some (Context IntegrityMismatch unverified)).
Proof.
  apply (DownloadToDisk_submitted (node := Sim.node Sim.corrupted) Sim.rf0 false
           Sim.start (Sim.served Sim.start) (Sim.served Sim.start)
           (Sim.served Sim.start) Sim.done [EvRenterFilesGet] 7); reflexivity.
Defined.

Lemma Upload_untracked_witness :
  Upload (node := Sim.node Sim.idle) Sim.lf0 2 2 Sim.start =
  (Val (Some Sim.rf0,
        Some (Context (New "file is not tracked by the renter") not_tracked)),
   Sim.served Sim.start,
   [EvRenterUploadPost "/tmp/SiaTesting/7" "/7" 2 2; EvRenterFilesGet]).
Proof.
  apply (proj2 (Upload_untracked (node := Sim.node Sim.idle) Sim.lf0 2 2
                  Sim.start Sim.start eq_refl) (mkRenterFiles []) (Sim.served Sim.start)).
  - reflexivity.
  - intros f [].
Defined.

Lemma UploadNewFileBlocking_steps_witness :
  let polls := [EvRenterFilesGet; EvRenterFilesGet] in
  let post := [EvRenterUploadPost "/tmp/SiaTesting/7" "/7" 2 2; EvRenterFilesGet] in
  fdiv (float64_of_Z ((2 + 2) mod 2 ^ 64)) (float64_of_Z 2) =
    S754_finite false 4503599627370496 (-51) /\
  fgeb (fi_Redundancy Sim.done) (S754_finite false 4503599627370496 (-51)) = true /\
  float64_of_Z 1 = S754_finite false 4503599627370496 (-52) /\
  fgeb (fi_UploadProgress Sim.done) (S754_finite false 4503599627370496 (-52)) = true /\
  steps (node := Sim.node Sim.healthy) 4096 2 2 Sim.start Sim.lf0 Sim.rf0
        Sim.start (Sim.mkState 1 0) (Sim.mkState 3 0) (Sim.mkState 5 0)
        post polls polls /\
  UploadNewFileBlocking (node := Sim.node Sim.healthy) 4096 2 2 Sim.start =
  (Val (Some Sim.rf0, None), Sim.mkState 5 0, EvNewFile 4096 :: post ++ polls ++ polls).
Proof.
  intros polls post.
  assert (H : steps (node := Sim.node Sim.healthy) 4096 2 2 Sim.start Sim.lf0
                    Sim.rf0 Sim.start (Sim.mkState 1 0) (Sim.mkState 3 0)
                    (Sim.mkState 5 0) post polls polls).
  { repeat split. }
  repeat (split; [reflexivity|]).
  split; [exact H|].
  exact (proj1 (proj2 (UploadNewFileBlocking_steps (node := Sim.node Sim.healthy)
                         4096 2 2 Sim.start)) _ _ _ _ _ _ _ _ _ H).
Defined.

(** With [2^63] data pieces and [2^63] parity pieces the sum wraps to 0 and
    so does the target: the renter reports a redundancy of one half at every
    poll, below [(d+p)/d = 2], and [UploadNewFileBlocking] returns a nil
    error all the same. *)
Lemma UploadNewFileBlocking_wrapped_target :
  let d := 2 ^ 63 in
  let p := 2 ^ 63 in
  (0 <= d < 2 ^ 64 /\ 0 <= p < 2 ^ 64 /\ d + p = 2 * d) /\
  fdiv (float64_of_Z (d + p)) (float64_of_Z d) = Sim.two /\
  (forall k, fst (Sim.files_at Sim.meagre k) = mkRenterFiles [Sim.thin]) /\
  fi_Redundancy Sim.thin = Sim.half /\
  fltb Sim.half Sim.two = true /\
  fgeb Sim.half Sim.two = false /\
  fullRedundancy d p = float64_zero /\
  UploadNewFileBlocking (node := Sim.node Sim.meagre) 4096 d p Sim.start =
    (Val (Some Sim.rf0, None), Sim.mkState 5 0,
     [EvNewFile 4096; EvRenterUploadPost "/tmp/SiaTesting/7" "/7" d p;
      EvRenterFilesGet; EvRenterFilesGet; EvRenterFilesGet; EvRenterFilesGet;
      EvRenterFilesGet]).
Proof. vm_compute. repeat split; try discriminate; reflexivity. Qed.



(** ** Further behaviour of the harness, over any node

    The methods receive their files by pointer and dereference them.  The
    definitions take the files pointed to, so every statement below is
    about calls whose pointers are not nil; what a call with a nil pointer
    does is not stated. *)

Lemma find_first {A} (f : A -> bool) (l : list A) (x : A) :
  find f l = Some x ->
  exists before after,
    l = before ++ x :: after /\ f x = true /\
    forall y, In y before -> f y = false.
Proof.
  induction l as [|a l IH]; simpl; [discriminate|].
  destruct (f a) eqn:Fa.
  - intro H. injection H as ->. exists [], l. repeat split; [assumption|].
    intros y [].
  - intro H. destruct (IH H) as (before & after & -> & Fx & Hb).
    exists (a :: before), after. repeat split; [assumption|].
    intros y [<-|Hy]; [assumption|now apply Hb].
Qed.

Section Behaviour.

Context {Σ : Type} {node : Node Σ}.

(** *** Tracked files *)

(** X1. A file info that [FileInfo] returns without error is the first file
    of the renter's list that has the remote file's path. *)
Theorem FileInfo_first_match (rf : RemoteFile) (s : Σ) (fi : modules_FileInfo) :
  result (FileInfo rf s) = Val (fi, None) ->
  exists files before after,
    fst (node_RenterFilesGet s) = (files, None) /\
    rf_Files files = before ++ fi :: after /\
    fi_SiaPath fi = siaPath rf /\
    (forall f, In f before -> fi_SiaPath f <> siaPath rf).
Proof.
  rewrite FileInfo_run. unfold result, lookup; cbn [fst snd].
  destruct (node_RenterFilesGet s) as [[files [e|]] s1]; cbn [fst snd];
    [discriminate|].
  destruct (find _ (rf_Files files)) as [file|] eqn:F; [|discriminate].
  intro H. injection H as ->.
  destruct (find_first _ _ _ F) as (before & after & Hl & Hfi & Hb).
  exists files, before, after. repeat split; try assumption.
  - now apply String.eqb_eq.
  - intros f Hf. apply String.eqb_neq. now apply Hb.
Qed.

(** X2. Called with a remote file that is not nil, [FileInfo] returns
    after exactly one request to the renter.  Its error is nil exactly when the list was retrieved and holds a file
    with the remote file's path; with an error the info is the zero value,
    and an error of the request itself is returned unchanged. *)
Theorem FileInfo_error (rf : RemoteFile) (s : Σ) :
  exists fi err,
    FileInfo rf s = (Val (fi, err), snd (node_RenterFilesGet s), [EvRenterFilesGet]) /\
    (err = None <->
     exists files f,
       fst (node_RenterFilesGet s) = (files, None) /\
       In f (rf_Files files) /\ fi_SiaPath f = siaPath rf) /\
    (err <> None -> fi = FileInfo_zero) /\
    (forall files e, fst (node_RenterFilesGet s) = (files, Some e) -> err = Some e).
Proof.
  rewrite FileInfo_run. unfold lookup.
  destruct (node_RenterFilesGet s) as [[files [e|]] s1]; cbn [fst snd].
  - exists FileInfo_zero, (Some e). repeat split; try discriminate.
    + intros (files' & f & H & _). discriminate H.
    + intros files' e' H. now injection H as _ ->.
  - destruct (find _ (rf_Files files)) as [file|] eqn:F.
    + exists file, None. repeat split; try congruence.
      intros _. destruct (find_first _ _ _ F) as (before & after & Hl & Hfi & _).
      exists files, file. repeat split.
      * rewrite Hl. apply in_or_app. right. now left.
      * now apply String.eqb_eq.
    + exists FileInfo_zero, (Some (New "file is not tracked by the renter")).
      repeat split; try discriminate.
      intros (files' & f & H & Hin & Hp). injection H as <-.
      pose proof (find_none _ _ F f Hin) as Hf. simpl in Hf.
      apply String.eqb_neq in Hf. contradiction.
Qed.

(** *** Download records *)

(** X3. A record that [DownloadInfo] returns is the first record of the
    renter's list with both the remote file's path and the local file's
    path as destination. *)
Theorem DownloadInfo_first_match (lf : LocalFile) (rf : RemoteFile) (s : Σ)
  (di : api_DownloadInfo) (err : error) :
  result (DownloadInfo lf rf s) = Val (Some di, err) ->
  exists rdq before after,
    fst (node_RenterDownloadsGet s) = (rdq, None) /\
    rdq_Downloads rdq = before ++ di :: after /\
    di_SiaPath di = siaPath rf /\ di_Destination di = path lf /\
    (forall d, In d before ->
               ~ (di_SiaPath d = siaPath rf /\ di_Destination d = path lf)).
Proof.
  rewrite DownloadInfo_run. unfold result, record; cbn [fst snd].
  destruct (node_RenterDownloadsGet s) as [[rdq [e|]] s1]; cbn [fst snd];
    [discriminate|].
  destruct (find _ (rdq_Downloads rdq)) as [d|] eqn:F; [|discriminate].
  intro H. injection H as -> _.
  destruct (find_first _ _ _ F) as (before & after & Hl & Hm & Hb).
  apply matches_spec in Hm as [Hs Hd].
  exists rdq, before, after. repeat split; try assumption.
  intros d Hin Hboth. apply matches_spec in Hboth.
  rewrite (Hb d Hin) in Hboth. discriminate.
Qed.

(** *** Downloading *)

(** [DownloadToDisk], step by step on the node. *)
Lemma DownloadToDisk_run (rf : RemoteFile) (async : bool) (s : Σ) :
  DownloadToDisk rf async s =
  let s1 := snd (node_RenterFilesGet s) in
  match lookup rf (fst (node_RenterFilesGet s)) with
  | (_, Some e) =>
      (Val (None, Some (Context e "failed to retrieve FileInfo")), s1,
       [EvRenterFilesGet])
  | (fi, None) =>
      let n := fst (node_Intn MaxInt32 s1) in
      let s2 := snd (node_Intn MaxInt32 s1) in
      let dest := filepath_Join SiaTestingDir (Itoa n) in
      let lf := {| path := dest; checksum := rf_checksum rf |} in
      let submit :=
        [EvRenterFilesGet; EvIntn MaxInt32;
         EvRenterDownloadGet (siaPath rf) dest 0 (fi_Filesize fi) async] in
      match node_RenterDownloadGet (siaPath rf) dest 0 (fi_Filesize fi) async s2 with
      | (Some e, s3) =>
          (Val (None, Some (Context e "failed to download file")), s3, submit)
      | (None, s3) =>
          if async then (Val (Some lf, None), s3, submit)
          else
            (Val (Some lf, AddContext (integrity lf (fst (node_ReadFile dest s3)))
                                      unverified),
             snd (node_ReadFile dest s3), submit ++ [EvReadFile dest])
      end
  end.
Proof.
  unfold DownloadToDisk, bind at 1. rewrite FileInfo_run.
  destruct (lookup rf _) as [fi [e|]]; [reflexivity|].
  unfold Intn, RenterDownloadGet, bind, call.
  destruct (node_Intn MaxInt32 _) as [n s2]. cbn [fst snd].
  destruct (node_RenterDownloadGet _ _ 0 _ async s2) as [[e|] s3]; [reflexivity|].
  destruct async; [reflexivity|].
  rewrite checkIntegrity_run. cbn [path].
  destruct (integrity _ _); reflexivity.
Qed.

(** X4. Called with a remote file that is not nil, [DownloadToDisk]
    returns.  With a nil error the local file is not nil.  A local file that is returned has the remote file's
    checksum and is the destination of a download the renter was asked
    for, from offset 0.  When no local file is returned there is an error
    and no file was read. *)
Theorem DownloadToDisk_returns (rf : RemoteFile) (async : bool) (s : Σ) :
  exists lf err,
    result (DownloadToDisk rf async s) = Val (lf, err) /\
    (err = None -> lf <> None) /\
    (forall l, lf = Some l ->
       checksum l = rf_checksum rf /\
       exists size,
         In (EvRenterDownloadGet (siaPath rf) (path l) 0 size async)
            (trace (DownloadToDisk rf async s))) /\
    (lf = None ->
     err <> None /\ count is_read (trace (DownloadToDisk rf async s)) = O).
Proof.
  rewrite DownloadToDisk_run. cbv zeta.
  destruct (lookup rf _) as [fi [e|]].
  - eexists _, _. split; [reflexivity|].
    split; [discriminate|]. split; [discriminate|].
    intros _. split; [discriminate|reflexivity].
  - destruct (node_RenterDownloadGet _ _ 0 _ async _) as [[e|] s3].
    + eexists _, _. split; [reflexivity|].
      split; [discriminate|]. split; [discriminate|].
      intros _. split; [discriminate|reflexivity].
    + destruct async.
      * eexists _, _. split; [reflexivity|].
        split; [discriminate|]. split; [|discriminate].
        intros l H. injection H as <-. split; [reflexivity|].
        exists (fi_Filesize fi). unfold trace; simpl. auto.
      * eexists _, _. split; [reflexivity|].
        split; [discriminate|]. split; [|discriminate].
        intros l H. injection H as <-. split; [reflexivity|].
        exists (fi_Filesize fi). unfold trace; simpl. auto.
Qed.

(** X5. The two ways [DownloadToDisk] fails before a file exists.  When
    [FileInfo] fails, its error is returned in the context "failed to
    retrieve FileInfo" after that one request: no destination is drawn and
    no download is asked for.  When the renter refuses the download, its
    error is returned in the context "failed to download file" and nothing
    is read, blocking or not. *)
Theorem DownloadToDisk_failure (rf : RemoteFile) (async : bool) (s : Σ) :
  (forall fi e,
      result (FileInfo rf s) = Val (fi, Some e) ->
      DownloadToDisk rf async s =
        (Val (None, Some (Context e "failed to retrieve FileInfo")),
         final (FileInfo rf s), [EvRenterFilesGet])) /\
  (forall fi s1 t1 n s2 e s3,
      FileInfo rf s = (Val (fi, None), s1, t1) ->
      node_Intn MaxInt32 s1 = (n, s2) ->
      let dest := filepath_Join SiaTestingDir (Itoa n) in
      node_RenterDownloadGet (siaPath rf) dest 0 (fi_Filesize fi) async s2 =
        (Some e, s3) ->
      DownloadToDisk rf async s =
        (Val (None, Some (Context e "failed to download file")), s3,
         t1 ++ [EvIntn MaxInt32;
                EvRenterDownloadGet (siaPath rf) dest 0 (fi_Filesize fi) async])).
Proof.
  rewrite DownloadToDisk_run, FileInfo_run. cbv zeta.
  unfold result, final; cbn [fst snd]. split.
  - intros fi e H. injection H as ->. reflexivity.
  - intros fi s1 t1 n s2 e s3 H Hn Hget. injection H as -> <- <-.
    rewrite Hn. cbn [fst snd]. now rewrite Hget.
Qed.

(** X6. A blocking [DownloadToDisk] whose download the renter accepted
    returns a nil error exactly when the file at the destination it asked
    for can be read and the checksum of its content is the remote file's;
    the local file is returned either way. *)
Theorem DownloadToDisk_blocking (rf : RemoteFile) (s s1 s2 s3 : Σ)
  (fi : modules_FileInfo) (t1 : list Event) (n : Z) :
  let dest := filepath_Join SiaTestingDir (Itoa n) in
  let lf := {| path := dest; checksum := rf_checksum rf |} in
  FileInfo rf s = (Val (fi, None), s1, t1) ->
  node_Intn MaxInt32 s1 = (n, s2) ->
  node_RenterDownloadGet (siaPath rf) dest 0 (fi_Filesize fi) false s2 = (None, s3) ->
  exists err,
    result (DownloadToDisk rf false s) = Val (Some lf, err) /\
    final (DownloadToDisk rf false s) = snd (node_ReadFile dest s3) /\
    count is_read (trace (DownloadToDisk rf false s)) = 1%nat /\
    In (EvReadFile dest) (trace (DownloadToDisk rf false s)) /\
    (err = None <->
     exists data,
       fst (node_ReadFile dest s3) = (data, None) /\
       fileChecksum data = rf_checksum rf).
Proof.
  intros dest lf H Hn Hget. rewrite DownloadToDisk_run. cbv zeta.
  rewrite FileInfo_run in H. injection H as Hl <- <-.
  rewrite Hl, Hn. cbn [fst snd]. fold dest. rewrite Hget. fold lf.
  eexists. unfold result, final, trace; cbn [fst snd].
  split; [reflexivity|]. split; [reflexivity|].
  split; [reflexivity|]. split; [simpl; auto|].
  destruct (node_ReadFile dest s3) as [[data [e|]] s4]; cbn [fst integrity].
  - split; [discriminate|]. intros (d & H & _). discriminate H.
  - change (checksum lf) with (rf_checksum rf).
    destruct (bytes_eqb (fileChecksum data) (rf_checksum rf)) eqn:E; simpl.
    + split; [|reflexivity]. intros _. exists data.
      split; [reflexivity|]. now apply bytes_eqb_eq.
    + split; [discriminate|]. intros (d & H & Hc). injection H as <-.
      apply bytes_eqb_eq in Hc. congruence.
Qed.

(** X7. Called with a remote file that is not nil, [DownloadByStream]
    returns, and returns a nil error exactly when the file is tracked, the fetch of its bytes from offset 0 over its
    listed size succeeds, and the hash of the bytes returned is the
    remote file's checksum. *)
Theorem DownloadByStream_nil_error (rf : RemoteFile) (s : Σ) :
  exists data err,
    result (DownloadByStream rf s) = Val (data, err) /\
    (err = None <->
     exists fi,
       result (FileInfo rf s) = Val (fi, None) /\
       fst (node_RenterDownloadHTTPResponseGet (siaPath rf) 0 (fi_Filesize fi)
              (final (FileInfo rf s))) = (data, None) /\
       HashAll data = rf_checksum rf).
Proof.
  unfold DownloadByStream, bind at 1. rewrite FileInfo_run.
  unfold result, final; cbn [fst snd].
  destruct (lookup rf _) as [fi [e|]].
  - eexists _, _. split; [reflexivity|]. split; [discriminate|].
    intros (fi' & H & _). discriminate H.
  - unfold RenterDownloadHTTPResponseGet, bind, call.
    destruct (node_RenterDownloadHTTPResponseGet _ 0 _ _) as [[data [e|]] s2] eqn:G;
      cbn [is_nil andb].
    + exists data, (Some e). split; [reflexivity|]. split; [discriminate|].
      intros (fi' & H & Hg & _). injection H as <-. rewrite G in Hg.
      discriminate Hg.
    + destruct (bytes_eqb (rf_checksum rf) (HashAll data)) eqn:E; cbn [negb].
      * exists data, None. split; [reflexivity|]. split; [|reflexivity].
        intros _. exists fi. rewrite G. repeat split.
        apply bytes_eqb_eq in E. congruence.
      * eexists data, _. split; [reflexivity|]. split; [discriminate|].
        intros (fi' & _ & _ & Hh). apply bytes_eqb_neq in E. congruence.
Qed.

(** X8. The two ways [DownloadByStream] fails before comparing anything.
    When [FileInfo] fails no bytes are fetched and its error is returned in
    the context "failed to retrieve FileInfo".  When the fetch fails its
    error is returned unchanged with whatever bytes came along, whether or
    not they hash to the checksum. *)
Theorem DownloadByStream_failure (rf : RemoteFile) (s : Σ) :
  (forall fi e,
      result (FileInfo rf s) = Val (fi, Some e) ->
      DownloadByStream rf s =
        (Val ([], Some (Context e "failed to retrieve FileInfo")),
         final (FileInfo rf s), [EvRenterFilesGet])) /\
  (forall fi s1 t1 data e s2,
      FileInfo rf s = (Val (fi, None), s1, t1) ->
      node_RenterDownloadHTTPResponseGet (siaPath rf) 0 (fi_Filesize fi) s1 =
        ((data, Some e), s2) ->
      DownloadByStream rf s =
        (Val (data, Some e), s2,
         t1 ++ [EvRenterDownloadHTTPResponseGet (siaPath rf) 0 (fi_Filesize fi)])).
Proof.
  split.
  - intros fi e. unfold DownloadByStream, bind. rewrite FileInfo_run.
    unfold result, final; cbn [fst snd]. intro H. injection H as ->. reflexivity.
  - intros fi s1 t1 data e s2 H Hget.
    unfold DownloadByStream, RenterDownloadHTTPResponseGet, bind, call.
    now rewrite H, Hget.
Qed.

(** *** Uploading *)

(** X9. Called with a local file that is not nil, [Upload] returns.  The
    remote file is nil exactly when the renter refuses the upload; then the renter's error is returned
    unchanged and the list of files is not asked for.  A remote file that
    is returned has the local file's name as path and its checksum, and a
    nil error means that [FileInfo] found it right after the upload. *)
Theorem Upload_returns (lf : LocalFile) (d p : uint64) (s : Σ) :
  let post := node_RenterUploadPost (path lf) ("/" ++ fileName lf)%string d p s in
  exists rf err,
    result (Upload lf d p s) = Val (rf, err) /\
    (rf = None <-> fst post <> None) /\
    (rf = None ->
     err = fst post /\
     Upload lf d p s =
       (Val (None, fst post), snd post,
        [EvRenterUploadPost (path lf) ("/" ++ fileName lf)%string d p])) /\
    (forall r, rf = Some r ->
               siaPath r = fileName lf /\ rf_checksum r = checksum lf) /\
    (err = None ->
     rf <> None /\
     exists fi, result (FileInfo (remote lf) (snd post)) = Val (fi, None)).
Proof.
  intro post. subst post. rewrite Upload_run. cbv zeta.
  destruct (node_RenterUploadPost _ _ d p s) as [[e|] s1]; cbn [fst snd].
  - exists None, (Some e). split; [reflexivity|].
    split; [split; [discriminate|reflexivity]|].
    split; [intros _; split; reflexivity|].
    split; discriminate.
  - eexists (Some (remote lf)), _. split; [reflexivity|].
    split; [split; [discriminate|intro H; now elim H]|].
    split; [discriminate|].
    split; [intros r H; injection H as <-; split; reflexivity|].
    intro H. split; [discriminate|]. rewrite FileInfo_run.
    unfold result; cbn [fst].
    destruct (lookup (remote lf) _) as [fi [e|]]; [discriminate H|].
    now exists fi.
Qed.

(** X10. When the renter accepts the upload and then lists a file whose
    path is the local file's name, [Upload] returns the remote file with a
    nil error.  The upload is posted under "/" followed by the name; the
    file is looked up under the name alone. *)
Theorem Upload_tracked (lf : LocalFile) (d p : uint64) (s s1 s2 : Σ)
  (files : api_RenterFiles) (f : modules_FileInfo) :
  node_RenterUploadPost (path lf) ("/" ++ fileName lf)%string d p s = (None, s1) ->
  node_RenterFilesGet s1 = ((files, None), s2) ->
  In f (rf_Files files) ->
  fi_SiaPath f = fileName lf ->
  Upload lf d p s =
    (Val (Some {| siaPath := fileName lf; rf_checksum := checksum lf |}, None), s2,
     [EvRenterUploadPost (path lf) ("/" ++ fileName lf)%string d p;
      EvRenterFilesGet]).
Proof.
  intros Hpost Hget Hin Hname. rewrite Upload_run, Hpost. cbv zeta.
  rewrite Hget. cbn [fst snd]. unfold lookup; cbn [fst snd].
  destruct (find _ (rf_Files files)) as [file|] eqn:F; [reflexivity|].
  pose proof (find_none _ _ F f Hin) as Hf. simpl in Hf.
  apply String.eqb_neq in Hf. contradiction.
Qed.

(** X11. Whatever [NewFile] returns, [UploadNewFile] dereferences a nil
    pointer, and panics, exactly when that is a nil file with a nil error.
    When [NewFile] returns an error nothing is uploaded, even if a file
    came with the error.  With a nil error the remote file is the one made
    of the file [NewFile] created.  A call of [NewFile] that does not
    return is not covered. *)
Theorem UploadNewFile_returns (filesize : Z) (d p : uint64) (s s1 : Σ)
  (created : option LocalFile * error) :
  node_NewFile filesize s = (created, s1) ->
  (result (UploadNewFile filesize d p s) = Panic <-> created = (None, None)) /\
  (forall lf e,
      created = (lf, Some e) ->
      UploadNewFile filesize d p s =
        (Val (None, Some (Context e "failed to create file")), s1,
         [EvNewFile filesize])) /\
  (forall rf,
      result (UploadNewFile filesize d p s) = Val (rf, None) ->
      exists lf, created = (Some lf, None) /\ rf = Some (remote lf)).
Proof.
  intro Hnew. rewrite UploadNewFile_run, Hnew.
  destruct created as [[lf|] [e|]].
  - split; [split; discriminate|].
    split; [intros lf' e' H; now injection H as _ <-|discriminate].
  - rewrite Upload_run. cbv zeta.
    destruct (node_RenterUploadPost _ _ d p s1) as [[e|] s2].
    + split; [split; discriminate|]. split; [discriminate|discriminate].
    + split; [split; discriminate|]. split; [discriminate|].
      unfold result; cbn [fst]. intros rf H. exists lf. split; [reflexivity|].
      destruct (AddContext _ not_tracked); simpl in H; congruence.
  - split; [split; discriminate|].
    split; [intros lf' e' H; now injection H as _ <-|discriminate].
  - split; [split; reflexivity|]. split; discriminate.
Qed.

(** X12. When [Upload] fails, [UploadNewFile] returns its error in the
    context "failed to start upload", together with the remote file
    [Upload] returned; for an upload the renter accepted and does not
    list, that is the remote file with the error of [FileInfo] under both
    contexts. *)
Theorem UploadNewFile_start_failure (filesize : Z) (d p : uint64) (s s1 : Σ)
  (lf : LocalFile) :
  node_NewFile filesize s = ((Some lf, None), s1) ->
  (forall rf e s2 t2,
      Upload lf d p s1 = (Val (rf, Some e), s2, t2) ->
      UploadNewFile filesize d p s =
        (Val (rf, Some (Context e "failed to start upload")), s2,
         EvNewFile filesize :: t2)) /\
  (forall fi e,
      fst (node_RenterUploadPost (path lf) ("/" ++ fileName lf)%string d p s1) = None ->
      result (FileInfo (remote lf)
                (snd (node_RenterUploadPost (path lf) ("/" ++ fileName lf)%string
                        d p s1))) = Val (fi, Some e) ->
      result (UploadNewFile filesize d p s) =
        Val (Some (remote lf),
             Some (Context (Context e not_tracked) "failed to start upload"))).
Proof.
  intro Hnew. rewrite UploadNewFile_run, Hnew. split.
  - intros rf e s2 t2 H. now rewrite H.
  - intros fi e Hpost. rewrite Upload_run, FileInfo_run. cbv zeta.
    destruct (node_RenterUploadPost _ _ d p s1) as [[e'|] s2]; cbn [fst snd] in *;
      [discriminate Hpost|].
    unfold result; cbn [fst]. intro H. injection H as H. now rewrite H.
Qed.

(** *** Budgets of the waits *)

Lemma count_app (p : Event -> bool) (t1 t2 : list Event) :
  count p (t1 ++ t2) = (count p t1 + count p t2)%nat.
Proof. unfold count. now rewrite filter_app, length_app. Qed.

Lemma slept_app (t1 t2 : list Event) : slept (t1 ++ t2) = slept t1 + slept t2.
Proof.
  induction t1 as [|ev t1 IH]; [reflexivity|].
  destruct ev; simpl; rewrite IH; lia.
Qed.

Lemma slept_pollTrace (ev : Event) (interval : Duration) (k : nat) :
  is_sleep ev = false ->
  slept (pollTrace ev interval k) = Z.of_nat (pred k) * interval.
Proof.
  intro Hev. induction k as [|k IH]; [reflexivity|].
  destruct k as [|k].
  - destruct ev; try discriminate; reflexivity.
  - change (pollTrace ev interval (S (S k)))
      with (ev :: EvSleep interval :: pollTrace ev interval (S k)).
    assert (H : forall t, slept (ev :: t) = slept t)
      by (intro t; destruct ev; try discriminate; reflexivity).
    rewrite H. cbn [slept]. rewrite IH. cbn [pred]. lia.
Qed.

Lemma retryLoop_never_panics (interval : Duration) (check : M Σ error) :
  (forall s, result (check s) <> Panic) ->
  forall n s, result (retryLoop n interval check s) <> Panic.
Proof.
  intros Hc n. induction n as [|n IH]; intro s; [discriminate|].
  rewrite retryLoop_step. specialize (Hc s).
  destruct (check s) as [[[[e|]|] s1] t1]; try discriminate.
  - destruct n as [|n]; [discriminate|]. apply IH.
  - now elim Hc.
Qed.

(** A run of the engine with the budget of the waits. *)
Lemma Retry_1000 (interval : Duration) (check : M Σ error) (s : Σ) :
  exists k : nat,
    (1 <= k <= 1000)%nat /\
    Polled interval check k s (Retry 1000 interval check s) /\
    ((k < 1000)%nat -> ~ failed (result (Retry 1000 interval check s))).
Proof.
  rewrite (Retry_positive 1000) by lia.
  remember (Z.to_nat (1000 - 1)) as n eqn:En.
  assert (Hn : S n = 1000%nat) by (subst n; reflexivity).
  destruct (retryLoop_polled n interval check s) as (k & Hk & HP & Hstop).
  exists k. rewrite <- Hn. repeat split; try lia; assumption.
Qed.

Lemma WaitForDownload_run (lf : LocalFile) (rf : RemoteFile) (s : Σ) :
  WaitForDownload lf rf s =
  let r := Retry 1000 (100 * Millisecond) (downloadCheck lf rf) s in
  match result r with
  | Val None =>
      (Val (integrity lf (fst (node_ReadFile (path lf) (final r)))),
       snd (node_ReadFile (path lf) (final r)),
       trace r ++ [EvReadFile (path lf)])
  | Val (Some e) => (Val (Some e), final r, trace r)
  | Panic => (Panic, final r, trace r)
  end.
Proof.
  unfold WaitForDownload, bind. cbv zeta.
  destruct (Retry 1000 _ _ s) as [[[[e|]|] s1] t1];
    unfold result, final, trace; cbn [fst snd].
  - unfold ret. now rewrite app_nil_r.
  - now rewrite checkIntegrity_run.
  - reflexivity.
Qed.


Lemma Retry_never_panics (interval : Duration) (check : M Σ error) (s : Σ) :
  (forall s0, result (check s0) <> Panic) ->
  result (Retry 1000 interval check s) <> Panic.
Proof. intro H. unfold Retry. now apply retryLoop_never_panics. Qed.


Lemma thresholdCheck_never_panics format observed (rf : RemoteFile)
  (target : float64) (s : Σ) :
  result (thresholdCheck format observed rf target s) <> Panic.
Proof. rewrite thresholdCheck_run. discriminate. Qed.

Lemma waitFor_run format observed (rf : RemoteFile) (target : float64) (s : Σ) :
  waitFor format observed rf target s =
  let s1 := snd (node_RenterFilesGet s) in
  match snd (lookup rf (fst (node_RenterFilesGet s))) with
  | Some _ => (Val (Some untracked), s1, [EvRenterFilesGet])
  | None =>
      let r := Retry 1000 (100 * Millisecond)
                     (thresholdCheck format observed rf target) s1 in
      (result r, final r, EvRenterFilesGet :: trace r)
  end.
Proof.
  unfold waitFor, bind. rewrite FileInfo_run. cbv zeta.
  destruct (lookup rf _) as [fi [e|]]; cbn [snd]; [reflexivity|].
  now destruct (Retry 1000 _ _ _) as [[r s2] t2].
Qed.

Lemma waitFor_budget format observed (rf : RemoteFile) (target : float64) (s : Σ) :
  within_upload_budget (waitFor format observed rf target s).
Proof.
  unfold within_upload_budget. rewrite waitFor_run. cbv zeta.
  destruct (snd (lookup rf _)) as [e|].
  - unfold result, trace, paced; cbn.
    repeat split; try discriminate; try lia; repeat constructor; discriminate.
  - set (check := thresholdCheck format observed rf target).
    set (s1 := snd (node_RenterFilesGet s)).
    destruct (Retry_1000 (100 * Millisecond) check s1) as (k & Hk & HP & _).
    apply (Polled_trace EvRenterFilesGet) in HP as [_ Ht];
      [|intro; unfold check; now rewrite thresholdCheck_run].
    pose proof (Retry_never_panics (100 * Millisecond) check s1
                  (thresholdCheck_never_panics format observed rf target)) as Hnp.
    rewrite Ht. unfold result, trace in *; cbn [fst snd] in *.
    change (EvRenterFilesGet :: ?t) with ([EvRenterFilesGet] ++ t).
    rewrite !count_app, slept_app.
    rewrite (count_pollTrace_ev EvRenterFilesGet is_files_get),
      count_pollTrace_sleep, slept_pollTrace by reflexivity.
    cbn. split; [exact Hnp|]. split; [lia|]. split; [reflexivity|].
    split; [|split].
    + constructor; [discriminate|]. now apply pollTrace_interval.
    + unfold Millisecond. lia.
    + constructor; [reflexivity|]. clear. induction k as [|k IH]; [constructor|].
      destruct k as [|k]; simpl; repeat constructor. exact IH.
Qed.

(** X14. Called with a remote file that is not nil, [WaitForUploadProgress]
    and [WaitForUploadRedundancy] return whatever the renter does, after at least one and at most 1001
    requests for the list of files and nothing else but suspensions of
    100ms, two fewer than requests and at most 99.9 seconds in all. *)
Theorem WaitForUpload_budget (rf : RemoteFile) (target : float64) (s : Σ) :
  within_upload_budget (WaitForUploadProgress rf target s) /\
  within_upload_budget (WaitForUploadRedundancy rf target s).
Proof.
  rewrite WaitForUploadProgress_shape, WaitForUploadRedundancy_shape.
  split; apply waitFor_budget.
Qed.

(** *** Waiting for a download *)

Lemma judge_nil (r : option api_DownloadInfo * error) :
  judge r = None -> r = (None, None) \/
  exists d, r = (Some d, None) /\ di_Completed d = true.
Proof.
  destruct r as [[d|] [e|]]; unfold judge; cbn [fst snd]; try discriminate.
  - destruct (di_Completed d) eqn:C; [|discriminate].
    intros _. right. now exists d.
  - intros _. now left.
Qed.

(** X15. [WaitForDownload] returns a nil error only after a poll in which
    [DownloadInfo] returned a completed record of the download, followed
    by a read of the local file whose content has the local file's
    checksum. *)
Theorem WaitForDownload_success (lf : LocalFile) (rf : RemoteFile) (s : Σ) :
  result (WaitForDownload lf rf s) = Val None ->
  exists s0 d data,
    result (DownloadInfo lf rf s0) = Val (Some d, None) /\
    di_Completed d = true /\
    fst (node_ReadFile (path lf) (final (DownloadInfo lf rf s0))) = (data, None) /\
    fileChecksum data = checksum lf /\
    final (WaitForDownload lf rf s) =
      snd (node_ReadFile (path lf) (final (DownloadInfo lf rf s0))).
Proof.
  rewrite WaitForDownload_run. cbv zeta.
  destruct (Retry_1000 (100 * Millisecond) (downloadCheck lf rf) s)
    as (k & _ & HP & _).
  destruct (Polled_last_attempt _ _ _ _ _ HP) as (s0 & t0 & Hlast & _).
  rewrite downloadCheck_run in Hlast.
  destruct (Retry 1000 _ _ s) as [[[[e|]|] s1] t1];
    unfold result, final, trace in *; cbn [fst snd] in *; try discriminate.
  injection Hlast as Hj <-. intro H. injection H as Hi.
  exists s0. rewrite DownloadInfo_run. cbn [fst snd].
  apply judge_nil in Hj as [Hj | (d & Hj & Hc)].
  - now apply record_nil_error in Hj.
  - destruct (node_ReadFile (path lf) _) as [[data [e|]] s2];
      cbn [integrity fst snd] in *; [discriminate|].
    destruct (bytes_eqb (fileChecksum data) (checksum lf)) eqn:E; [|discriminate].
    exists d, data. rewrite Hj. repeat split; try assumption.
    now apply bytes_eqb_eq.
Qed.

(** X16. When the first poll finds the download completed,
    [WaitForDownload] makes that one request, does not suspend, reads the
    local file and returns what the integrity check of it returns. *)
Theorem WaitForDownload_completed (lf : LocalFile) (rf : RemoteFile) (s s1 : Σ)
  (rdq : api_RenterDownloadQueue) (d : api_DownloadInfo) :
  node_RenterDownloadsGet s = ((rdq, None), s1) ->
  find (matches lf rf) (rdq_Downloads rdq) = Some d ->
  di_Completed d = true ->
  WaitForDownload lf rf s =
    (result (checkIntegrity lf s1), final (checkIntegrity lf s1),
     [EvRenterDownloadsGet; EvReadFile (path lf)]).
Proof.
  intros Hget Hfind Hc. rewrite WaitForDownload_run. cbv zeta.
  rewrite (Retry_positive 1000) by lia. rewrite retryLoop_step.
  rewrite downloadCheck_run, Hget. unfold record, judge. cbn [fst snd].
  rewrite Hfind, sanity_nil. cbn [fst snd]. rewrite Hc. cbn [negb].
  unfold result, final, trace; cbn [fst snd].
  now rewrite checkIntegrity_run.
Qed.

(** X17. A failed poll is not the end: when the first poll fails and the
    poll made 100ms later finds the download completed, [WaitForDownload]
    goes on to the integrity check and returns what it returns. *)
Theorem WaitForDownload_recovers (lf : LocalFile) (rf : RemoteFile) (s s1 s2 : Σ)
  (e : Err) (t1 : list Event) (rdq : api_RenterDownloadQueue) (d : api_DownloadInfo) :
  downloadCheck lf rf s = (Val (Some e), s1, t1) ->
  node_RenterDownloadsGet (node_Sleep (100 * Millisecond) s1) = ((rdq, None), s2) ->
  find (matches lf rf) (rdq_Downloads rdq) = Some d ->
  di_Completed d = true ->
  WaitForDownload lf rf s =
    (result (checkIntegrity lf s2), final (checkIntegrity lf s2),
     [EvRenterDownloadsGet; EvSleep (100 * Millisecond); EvRenterDownloadsGet;
      EvReadFile (path lf)]).
Proof.
  intros Hfirst Hget Hfind Hc. rewrite WaitForDownload_run. cbv zeta.
  rewrite (Retry_positive 1000) by lia.
  change (Z.to_nat (1000 - 1)) with (S (Z.to_nat 998)).
  rewrite retryLoop_step, Hfirst. cbv zeta. rewrite retryLoop_step.
  rewrite downloadCheck_run, Hget. unfold record, judge. cbn [fst snd].
  rewrite Hfind, sanity_nil. cbn [fst snd]. rewrite Hc. cbn [negb].
  unfold result, final, trace; cbn [fst snd].
  rewrite checkIntegrity_run.
  rewrite downloadCheck_run in Hfirst. injection Hfirst as _ _ <-.
  reflexivity.
Qed.

Lemma WaitForDownload_all_fail (lf : LocalFile) (rf : RemoteFile) (e : Err) (s : Σ) :
  (forall s0, result (downloadCheck lf rf s0) = Val (Some e)) ->
  WaitForDownload lf rf s =
    (Val (Some e), final (WaitForDownload lf rf s),
     pollTrace EvRenterDownloadsGet (100 * Millisecond) 1000).
Proof.
  intro Hall. rewrite WaitForDownload_run. cbv zeta.
  destruct (Retry_1000 (100 * Millisecond) (downloadCheck lf rf) s)
    as (k & Hk & HP & Hstop).
  destruct (Polled_last_attempt _ _ _ _ _ HP) as (s0 & t0 & Hlast & _).
  pose proof (Hall s0) as Hfail. rewrite Hlast in Hfail.
  assert (k = 1000%nat) as ->.
  { destruct (Nat.eq_dec k 1000) as [->|Hne]; [reflexivity|].
    exfalso. apply Hstop; [lia|]. now exists e. }
  apply (Polled_trace EvRenterDownloadsGet) in HP as [_ Ht];
    [|apply downloadCheck_trace].
  clear Hlast Hstop Hk.
  destruct (Retry 1000 _ _ s) as [[r s1] t1].
  unfold result in Hfail; unfold trace in Ht; cbn [fst snd] in Hfail, Ht.
  subst r t1. reflexivity.
Qed.

(** X18. When every poll finds the download listed and not completed,
    [WaitForDownload] spends its whole budget, 1000 requests and 999
    suspensions, and returns the error "download hasn't finished yet"
    without reading the local file. *)
Theorem WaitForDownload_pending (lf : LocalFile) (rf : RemoteFile) (s : Σ) :
  always_pending lf rf ->
  let r := WaitForDownload lf rf s in
  result r = Val (Some unfinished) /\
  count is_downloads_get (trace r) = 1000%nat /\
  count is_sleep (trace r) = 999%nat /\
  count is_read (trace r) = 0%nat.
Proof.
  intros H r. subst r.
  rewrite (WaitForDownload_all_fail lf rf unfinished).
  - unfold result, trace; cbn [fst snd].
    split; [reflexivity|]. split; [now apply count_pollTrace_ev|].
    split; [now rewrite count_pollTrace_sleep|].
    now apply count_pollTrace_none.
  - intro s0. destruct (H s0) as (rdq & s1 & d & Hget & Hfind & Hc).
    rewrite downloadCheck_run, Hget. unfold record, judge. cbn [fst snd].
    rewrite Hfind, sanity_nil. cbn [fst snd]. now rewrite Hc.
Qed.

(** *** Waiting for an upload *)

Lemma waitFor_at_once format observed (rf : RemoteFile) (target : float64)
  (s s1 s2 : Σ) (fi file : modules_FileInfo) (t1 t2 : list Event) :
  FileInfo rf s = (Val (fi, None), s1, t1) ->
  FileInfo rf s1 = (Val (file, None), s2, t2) ->
  fltb (observed file) target = false ->
  waitFor format observed rf target s =
    (Val None, s2, [EvRenterFilesGet; EvRenterFilesGet]).
Proof.
  rewrite !FileInfo_run. intros H0 H1 Hreached.
  injection H0 as H0 <- _. injection H1 as H1 Hs _.
  rewrite waitFor_run, H0. cbv zeta. cbn [snd].
  rewrite (Retry_positive 1000) by lia. rewrite retryLoop_step.
  rewrite thresholdCheck_run, H1. unfold verdict. rewrite Hreached.
  unfold result, final, trace; cbn [fst snd]. now rewrite Hs.
Qed.

(** X19. When the file is tracked and the first poll observes a value that
    is not below the target, a wait for an upload returns a nil error after
    its two requests, without suspending. *)
Theorem WaitForUpload_at_once (rf : RemoteFile) (target : float64) (s s1 s2 : Σ)
  (fi file : modules_FileInfo) (t1 t2 : list Event) :
  FileInfo rf s = (Val (fi, None), s1, t1) ->
  FileInfo rf s1 = (Val (file, None), s2, t2) ->
  (fltb (fi_UploadProgress file) target = false ->
   WaitForUploadProgress rf target s =
     (Val None, s2, [EvRenterFilesGet; EvRenterFilesGet])) /\
  (fltb (fi_Redundancy file) target = false ->
   WaitForUploadRedundancy rf target s =
     (Val None, s2, [EvRenterFilesGet; EvRenterFilesGet])).
Proof.
  intros H0 H1.
  rewrite WaitForUploadProgress_shape, WaitForUploadRedundancy_shape.
  split; intro H; eapply waitFor_at_once; eassumption.
Qed.

Lemma fltb_nan (x target : float64) : is_nan target = true -> fltb x target = false.
Proof.
  destruct target; try discriminate. intros _. now destruct x.
Qed.

(** X20. With no data piece and no parity piece the redundancy
    [UploadNewFileBlocking] waits for is [0/0], not a number; no value is
    below a target that is not a number, so a wait for it returns a nil
    error on the first poll that finds the file tracked, whatever
    redundancy is reported. *)
Theorem WaitForUploadRedundancy_no_pieces (rf : RemoteFile) (s s1 s2 : Σ)
  (fi file : modules_FileInfo) (t1 t2 : list Event) :
  FileInfo rf s = (Val (fi, None), s1, t1) ->
  FileInfo rf s1 = (Val (file, None), s2, t2) ->
  is_nan (fullRedundancy 0 0) = true /\
  WaitForUploadRedundancy rf (fullRedundancy 0 0) s =
    (Val None, s2, [EvRenterFilesGet; EvRenterFilesGet]).
Proof.
  intros H0 H1. split; [reflexivity|].
  rewrite WaitForUploadRedundancy_shape.
  eapply waitFor_at_once; try eassumption. now apply fltb_nan.
Qed.

(** *** Uploading and waiting *)

Lemma waitFor_never_panics format observed (rf : RemoteFile) (target : float64)
  (s : Σ) :
  result (waitFor format observed rf target s) <> Panic.
Proof. apply waitFor_budget. Qed.

(** X21. Whatever [NewFile] returns, [UploadNewFileBlocking] dereferences a
    nil pointer, and panics, exactly when that is a nil file with a nil
    error: whenever [UploadNewFile] returns a nil error the remote file it
    hands to the waits is not nil.  A call of [NewFile] that does not
    return is not covered. *)
Theorem UploadNewFileBlocking_panics (filesize : Z) (d p : uint64) (s s1 : Σ)
  (created : option LocalFile * error) :
  node_NewFile filesize s = (created, s1) ->
  (result (UploadNewFileBlocking filesize d p s) = Panic <->
   created = (None, None)).
Proof.
  intro Hnew. unfold UploadNewFileBlocking, bind at 1.
  rewrite UploadNewFile_run, Hnew.
  destruct created as [[lf|] [e|]];
    try (split; discriminate); [|split; reflexivity].
  rewrite Upload_run. cbv zeta.
  destruct (node_RenterUploadPost _ _ d p s1) as [[e|] s2];
    [split; discriminate|].
  destruct (AddContext _ not_tracked) as [e|]; cbn [AddContext];
    [split; discriminate|].
  unfold deref, bind, ret.
  rewrite WaitForUploadProgress_shape.
  pose proof (waitFor_never_panics progressFormat fi_UploadProgress (remote lf)
                float64_one (snd (node_RenterFilesGet s2))) as Hp.
  destruct (waitFor progressFormat _ _ _ _) as [[[[e|]|] s3] t3];
    try (split; discriminate); [|now elim Hp].
  rewrite WaitForUploadRedundancy_shape.
  pose proof (waitFor_never_panics redundancyFormat fi_Redundancy (remote lf)
                (fullRedundancy d p) s3) as Hr.
  destruct (waitFor redundancyFormat _ _ _ _) as [[[err|] s4] t4];
    [split; discriminate|now elim Hr].
Qed.

Lemma UploadNewFileBlocking_started (filesize : Z) (d p : uint64)
  (s s2 : Σ) (r : RemoteFile) (t2 : list Event) :
  UploadNewFile filesize d p s = (Val (Some r, None), s2, t2) ->
  UploadNewFileBlocking filesize d p s =
  match WaitForUploadProgress r float64_one s2 with
  | (Val (Some e), s3, t3) => (Val (Some r, Some e), s3, t2 ++ t3)
  | (Val None, s3, t3) =>
      match WaitForUploadRedundancy r (fullRedundancy d p) s3 with
      | (Val err, s4, t4) => (Val (Some r, err), s4, t2 ++ t3 ++ t4)
      | (Panic, s4, t4) => (Panic, s4, t2 ++ t3 ++ t4)
      end
  | (Panic, s3, t3) => (Panic, s3, t2 ++ t3)
  end.
Proof.
  intro Hup. unfold UploadNewFileBlocking, bind at 1. rewrite Hup.
  unfold deref, bind, ret.
  destruct (WaitForUploadProgress r float64_one s2) as [[[[e|]|] s3] t3];
    cbn [app]; rewrite ?app_nil_r; try reflexivity.
  destruct (WaitForUploadRedundancy r (fullRedundancy d p) s3)
    as [[[err|] s4] t4]; rewrite ?app_nil_r; reflexivity.
Qed.

(** X22. Once the upload has started, [UploadNewFileBlocking] returns the
    remote file whatever the waits do.  When the wait for progress fails,
    its error is returned and the wait for redundancy is not made; else
    the result of the wait for redundancy is returned. *)
Theorem UploadNewFileBlocking_returns_remote (filesize : Z) (d p : uint64)
  (s s2 : Σ) (r : RemoteFile) (t2 : list Event) :
  UploadNewFile filesize d p s = (Val (Some r, None), s2, t2) ->
  let progress := WaitForUploadProgress r float64_one s2 in
  let redundancy :=
    WaitForUploadRedundancy r (fullRedundancy d p) (final progress) in
  (forall e,
      result progress = Val (Some e) ->
      UploadNewFileBlocking filesize d p s =
        (Val (Some r, Some e), final progress, t2 ++ trace progress)) /\
  (result progress = Val None ->
   exists err,
     result redundancy = Val err /\
     UploadNewFileBlocking filesize d p s =
       (Val (Some r, err), final redundancy,
        t2 ++ trace progress ++ trace redundancy)).
Proof.
  intros Hup progress redundancy. subst redundancy progress.
  rewrite (UploadNewFileBlocking_started _ _ _ _ _ _ _ Hup).
  destruct (WaitForUploadProgress r float64_one s2) as [[[[e|]|] s3] t3];
    unfold result, final, trace; cbn [fst snd].
  - split; [|discriminate]. intros e' H. now injection H as <-.
  - split; [discriminate|]. intros _.
    pose proof (waitFor_never_panics redundancyFormat fi_Redundancy r
                  (fullRedundancy d p) s3) as Hr.
    rewrite <- WaitForUploadRedundancy_shape in Hr.
    destruct (WaitForUploadRedundancy r (fullRedundancy d p) s3)
      as [[[err|] s4] t4]; [|now elim Hr].
    exists err. split; reflexivity.
  - split; discriminate.
Qed.

End Behaviour.

(** ** Further runs on the scripted node *)

Lemma FileInfo_first_match_witness :
  exists files before after,
    fst (node_RenterFilesGet (Node := Sim.node Sim.crowded) Sim.start) = (files, None) /\
    rf_Files files = before ++ Sim.done :: after /\
    fi_SiaPath Sim.done = siaPath Sim.rf0 /\
    (forall f, In f before -> fi_SiaPath f <> siaPath Sim.rf0).
Proof.
  apply (FileInfo_first_match (node := Sim.node Sim.crowded) Sim.rf0 Sim.start
           Sim.done).
  reflexivity.
Defined.

Lemma DownloadInfo_first_match_witness :
  exists rdq before after,
    fst (node_RenterDownloadsGet (Node := Sim.node Sim.inconsistent) Sim.start)
      = (rdq, None) /\
    rdq_Downloads rdq = before ++ Sim.broken :: after /\
    di_SiaPath Sim.broken = siaPath Sim.rf0 /\
    di_Destination Sim.broken = path Sim.lf0 /\
    (forall d, In d before ->
               ~ (di_SiaPath d = siaPath Sim.rf0 /\ di_Destination d = path Sim.lf0)).
Proof.
  apply (DownloadInfo_first_match (node := Sim.node Sim.inconsistent) Sim.lf0
           Sim.rf0 Sim.start Sim.broken None).
  reflexivity.
Defined.

Lemma DownloadToDisk_failure_witness :
  DownloadToDisk (node := Sim.node Sim.idle) Sim.rf0 true Sim.start =
    (Val (None, Some (Context (New "file is not tracked by the renter")
                              "failed to retrieve FileInfo")),
     Sim.served Sim.start, [EvRenterFilesGet]) /\
  DownloadToDisk (node := Sim.node Sim.refusing) Sim.rf0 false Sim.start =
    (Val (None, Some (Context Sim.refused "failed to download file")),
     Sim.served Sim.start,
     [EvRenterFilesGet] ++
     [EvIntn MaxInt32; EvRenterDownloadGet "7" "/tmp/SiaTesting/7" 0 2 false]).
Proof.
  split.
  - apply (proj1 (DownloadToDisk_failure (node := Sim.node Sim.idle) Sim.rf0 true
                    Sim.start) FileInfo_zero).
    reflexivity.
  - apply (proj2 (DownloadToDisk_failure (node := Sim.node Sim.refusing) Sim.rf0
                    false Sim.start)
                 Sim.done (Sim.served Sim.start) [EvRenterFilesGet] 7
                 (Sim.served Sim.start) Sim.refused (Sim.served Sim.start));
      reflexivity.
Defined.

Lemma DownloadToDisk_blocking_witness :
  exists err,
    result (DownloadToDisk (node := Sim.node Sim.healthy) Sim.rf0 false Sim.start)
      = Val (Some Sim.lf0, err) /\
    final (DownloadToDisk (node := Sim.node Sim.healthy) Sim.rf0 false Sim.start)
      = Sim.served Sim.start /\
    count is_read
      (trace (DownloadToDisk (node := Sim.node Sim.healthy) Sim.rf0 false Sim.start))
      = 1%nat /\
    In (EvReadFile "/tmp/SiaTesting/7")
       (trace (DownloadToDisk (node := Sim.node Sim.healthy) Sim.rf0 false
                 Sim.start)) /\
    (err = None <->
     exists data,
       fst (node_ReadFile (Node := Sim.node Sim.healthy) "/tmp/SiaTesting/7"
              (Sim.served Sim.start)) = (data, None) /\
       data = Sim.content).
Proof.
  apply (DownloadToDisk_blocking (node := Sim.node Sim.healthy) Sim.rf0 Sim.start
           (Sim.served Sim.start) (Sim.served Sim.start) (Sim.served Sim.start)
           Sim.done [EvRenterFilesGet] 7); reflexivity.
Defined.

Lemma DownloadByStream_failure_witness :
  DownloadByStream (node := Sim.node Sim.idle) Sim.rf0 Sim.start =
    (Val ([], Some (Context (New "file is not tracked by the renter")
                            "failed to retrieve FileInfo")),
     Sim.served Sim.start, [EvRenterFilesGet]) /\
  DownloadByStream (node := Sim.node Sim.refusing) Sim.rf0 Sim.start =
    (Val (Sim.content, Some Sim.refused), Sim.served Sim.start,
     [EvRenterFilesGet] ++ [EvRenterDownloadHTTPResponseGet "7" 0 2]).
Proof.
  split.
  - apply (proj1 (DownloadByStream_failure (node := Sim.node Sim.idle) Sim.rf0
                    Sim.start) FileInfo_zero).
    reflexivity.
  - apply (proj2 (DownloadByStream_failure (node := Sim.node Sim.refusing) Sim.rf0
                    Sim.start)
                 Sim.done (Sim.served Sim.start) [EvRenterFilesGet]);
      reflexivity.
Defined.

Lemma Upload_tracked_witness :
  Upload (node := Sim.node Sim.crowded) Sim.lf0 2 2 Sim.start =
    (Val (Some Sim.rf0, None), Sim.served Sim.start,
     [EvRenterUploadPost "/tmp/SiaTesting/7" "/7" 2 2; EvRenterFilesGet]).
Proof.
  apply (Upload_tracked (node := Sim.node Sim.crowded) Sim.lf0 2 2 Sim.start
           Sim.start (Sim.served Sim.start)
           (mkRenterFiles [Sim.other; Sim.done; Sim.again]) Sim.again).
  - reflexivity.
  - reflexivity.
  - simpl. auto.
  - reflexivity.
Defined.

Lemma UploadNewFile_start_failure_witness :
  result (UploadNewFile (node := Sim.node Sim.unlisted) 4096 2 2 Sim.start) =
  Val (Some Sim.rf0,
       Some (Context (Context (New "file is not tracked by the renter") not_tracked)
                     "failed to start upload")).
Proof.
  apply (proj2 (UploadNewFile_start_failure (node := Sim.node Sim.unlisted) 4096 2 2
                  Sim.start Sim.start Sim.lf0 eq_refl) FileInfo_zero);
    reflexivity.
Defined.

Lemma WaitForDownload_success_witness :
  exists s0 d data,
    result (DownloadInfo (node := Sim.node Sim.finished) Sim.lf0 Sim.rf0 s0)
      = Val (Some d, None) /\
    di_Completed d = true /\
    fst (node_ReadFile (Node := Sim.node Sim.finished) (path Sim.lf0)
           (final (DownloadInfo (node := Sim.node Sim.finished) Sim.lf0 Sim.rf0 s0)))
      = (data, None) /\
    data = checksum Sim.lf0 /\
    final (WaitForDownload (node := Sim.node Sim.finished) Sim.lf0 Sim.rf0 Sim.start)
      = snd (node_ReadFile (Node := Sim.node Sim.finished) (path Sim.lf0)
               (final (DownloadInfo (node := Sim.node Sim.finished) Sim.lf0 Sim.rf0
                         s0))).
Proof.
  apply (WaitForDownload_success (node := Sim.node Sim.finished) Sim.lf0 Sim.rf0
           Sim.start).
  reflexivity.
Defined.

Lemma WaitForDownload_completed_witness :
  WaitForDownload (node := Sim.node Sim.finished) Sim.lf0 Sim.rf0 Sim.start =
    (Val None, Sim.served Sim.start,
     [EvRenterDownloadsGet; EvReadFile "/tmp/SiaTesting/7"]).
Proof.
  apply (WaitForDownload_completed (node := Sim.node Sim.finished) Sim.lf0 Sim.rf0
           Sim.start (Sim.served Sim.start)
           (mkRenterDownloadQueue [Sim.stray; Sim.complete]) Sim.complete);
    reflexivity.
Defined.

Lemma WaitForDownload_recovers_witness :
  WaitForDownload (node := Sim.node Sim.late) Sim.lf0 Sim.rf0 Sim.start =
    (Val None, Sim.mkState 2 (100 * Millisecond),
     [EvRenterDownloadsGet; EvSleep (100 * Millisecond); EvRenterDownloadsGet;
      EvReadFile "/tmp/SiaTesting/7"]).
Proof.
  apply (WaitForDownload_recovers (node := Sim.node Sim.late) Sim.lf0 Sim.rf0
           Sim.start (Sim.served Sim.start) (Sim.mkState 2 (100 * Millisecond))
           (Context Sim.unreachable "couldn't retrieve DownloadInfo")
           [EvRenterDownloadsGet]
           (mkRenterDownloadQueue [Sim.stray; Sim.complete]) Sim.complete);
    reflexivity.
Defined.

Lemma WaitForDownload_pending_witness :
  always_pending (node := Sim.node Sim.pending) Sim.lf0 Sim.rf0 /\
  let r := WaitForDownload (node := Sim.node Sim.pending) Sim.lf0 Sim.rf0 Sim.start in
  result r = Val (Some unfinished) /\
  count is_downloads_get (trace r) = 1000%nat /\
  count is_sleep (trace r) = 999%nat /\
  count is_read (trace r) = 0%nat.
Proof.
  assert (H : always_pending (node := Sim.node Sim.pending) Sim.lf0 Sim.rf0).
  { intro s0.
    exists (mkRenterDownloadQueue [Sim.stray; Sim.incomplete]), (Sim.served s0),
           Sim.incomplete.
    repeat split. }
  split; [exact H|].
  exact (WaitForDownload_pending (node := Sim.node Sim.pending) Sim.lf0 Sim.rf0
           Sim.start H).
Defined.

Lemma WaitForUpload_at_once_witness :
  WaitForUploadProgress (node := Sim.node Sim.healthy) Sim.rf0 float64_one Sim.start =
    (Val None, Sim.mkState 2 0, [EvRenterFilesGet; EvRenterFilesGet]) /\
  WaitForUploadRedundancy (node := Sim.node Sim.healthy) Sim.rf0 float64_one
                          Sim.start =
    (Val None, Sim.mkState 2 0, [EvRenterFilesGet; EvRenterFilesGet]).
Proof.
  destruct (WaitForUpload_at_once (node := Sim.node Sim.healthy) Sim.rf0 float64_one
              Sim.start (Sim.mkState 1 0) (Sim.mkState 2 0) Sim.done Sim.done
              [EvRenterFilesGet] [EvRenterFilesGet] eq_refl eq_refl) as [Hp Hr].
  split; [apply Hp|apply Hr]; reflexivity.
Defined.

Lemma WaitForUploadRedundancy_no_pieces_witness :
  is_nan (fullRedundancy 0 0) = true /\
  WaitForUploadRedundancy (node := Sim.node Sim.healthy) Sim.rf0
                          (fullRedundancy 0 0) Sim.start =
    (Val None, Sim.mkState 2 0, [EvRenterFilesGet; EvRenterFilesGet]).
Proof.
  apply (WaitForUploadRedundancy_no_pieces (node := Sim.node Sim.healthy) Sim.rf0
           Sim.start (Sim.mkState 1 0) (Sim.mkState 2 0) Sim.done Sim.done
           [EvRenterFilesGet] [EvRenterFilesGet]); reflexivity.
Defined.

Lemma UploadNewFileBlocking_returns_remote_witness :
  exists err,
    result (WaitForUploadRedundancy (node := Sim.node Sim.healthy) Sim.rf0
              (fullRedundancy 2 2) (Sim.mkState 3 0)) = Val err /\
    UploadNewFileBlocking (node := Sim.node Sim.healthy) 4096 2 2 Sim.start =
      (Val (Some Sim.rf0, err),
       final (WaitForUploadRedundancy (node := Sim.node Sim.healthy) Sim.rf0
                (fullRedundancy 2 2) (Sim.mkState 3 0)),
       [EvNewFile 4096; EvRenterUploadPost "/tmp/SiaTesting/7" "/7" 2 2;
        EvRenterFilesGet] ++
       trace (WaitForUploadProgress (node := Sim.node Sim.healthy) Sim.rf0
                float64_one (Sim.mkState 1 0)) ++
       trace (WaitForUploadRedundancy (node := Sim.node Sim.healthy) Sim.rf0
                (fullRedundancy 2 2) (Sim.mkState 3 0))).
Proof.
  apply (proj2 (UploadNewFileBlocking_returns_remote (node := Sim.node Sim.healthy)
                  4096 2 2 Sim.start (Sim.mkState 1 0) Sim.rf0
                  [EvNewFile 4096; EvRenterUploadPost "/tmp/SiaTesting/7" "/7" 2 2;
                   EvRenterFilesGet] eq_refl)).
  reflexivity.
Defined.

Lemma UploadNewFile_returns_witness :
  result (UploadNewFile (node := Sim.node Sim.hollow) 4096 2 2 Sim.start) = Panic /\
  result (UploadNewFile (node := Sim.node Sim.healthy) 4096 2 2 Sim.start) <> Panic.
Proof.
  split.
  - apply (proj1 (UploadNewFile_returns (node := Sim.node Sim.hollow) 4096 2 2
                    Sim.start Sim.start (None, None) eq_refl)).
    reflexivity.
  - intro H.
    apply (proj1 (UploadNewFile_returns (node := Sim.node Sim.healthy) 4096 2 2
                    Sim.start Sim.start (Some Sim.lf0, None) eq_refl)) in H.
    discriminate H.
Defined.

Lemma UploadNewFileBlocking_panics_witness :
  result (UploadNewFileBlocking (node := Sim.node Sim.hollow) 4096 2 2 Sim.start)
    = Panic /\
  result (UploadNewFileBlocking (node := Sim.node Sim.healthy) 4096 2 2 Sim.start)
    <> Panic.
Proof.
  split.
  - apply (UploadNewFileBlocking_panics (node := Sim.node Sim.hollow) 4096 2 2
             Sim.start Sim.start (None, None) eq_refl).
    reflexivity.
  - intro H.
    apply (UploadNewFileBlocking_panics (node := Sim.node Sim.healthy) 4096 2 2
             Sim.start Sim.start (Some Sim.lf0, None) eq_refl) in H.
    discriminate H.
Defined.
